(** * Page flow of the two report generators

    [courses/docs/active-mode-breakdown.py] and
    [courses/docs/feed-feature-breakdown.py] each subclass [FPDF] as
    [FeaturePDF] and drive it from [build_pdf].  This development embeds
    the two classes and the page-level parts of [build_pdf] on top of a
    model of the [FPDF] operations they call, and states the properties of
    the page flow over that embedding.

    Lengths are millimetres, as in the scripts (the [FPDF()] default
    unit), and are kept as exact rationals. *)

From Stdlib Require Import ZArith QArith Lqa String List Bool Arith Lia.
From Stdlib Require Import Ascii DecimalString.
Import ListNotations.

Open Scope Q_scope.

(** ** Drawing model shared by both scripts *)

Module Backend.

Definition color : Type := (nat * nat * nat)%type.

Inductive family := NoFamily | Helvetica | Courier.
(** The style strings of the library: empty, "B" and "I". *)
Inductive font_style := Regular | StyleB | StyleI.

Record font_spec := mkFont {
  font_family : family;
  font_style_of : font_style;
  font_size_pt : Q
}.

Inductive align := AlignL | AlignC | AlignJ.
(** Cursor placement after a cell: [new_x] and [new_y] of fpdf2. *)
Inductive xpos := RIGHT | LMARGIN | LEFT.
Inductive ypos := TOP | NEXT.

(** A piece of text handed to the library.  [Stamp fmt t] is the result
    of [datetime.now().strftime(fmt)] when the clock read [t]; the
    formatting itself is the standard library's. *)
Inductive piece :=
| Lit (s : string)
| Stamp (fmt : string) (t : nat).

Definition text : Type := list piece.

(** What ends up on a page. *)
Inductive prim :=
| Rect (rx ry rw rh : Q) (fill : color)
| Line (x1 y1 x2 y2 : Q) (draw : color) (lw : Q)
| Cell (cx cy cw ch : Q) (txt : text) (f : font_spec) (tc : color)
       (al : align) (bg : option color).

(** Who drew it: the report's own calls, or the [header]/[footer] hooks
    that [add_page] runs. *)
Inductive origin := Content | InHeader | InFooter.

Record event := mkEvent {
  ev_page : nat;
  ev_origin : origin;
  ev_prim : prim
}.

Record style := mkStyle {
  font : font_spec;
  text_color : color;
  fill_color : color;
  draw_color : color;
  line_width : Q
}.

(** The part of an [FPDF] object the scripts read or change, the number
    of clock reads made so far, and the line breaker of the loaded
    fonts: [metrics f w s] is the list of lines [s] is broken into in
    font [f] at available width [w]. *)
Record state := mkState {
  page : nat;
  cur_x : Q;
  cur_y : Q;
  gfx : style;
  in_footer : bool;
  auto_page_break : bool;
  b_margin : Q;
  str_alias_nb_pages : option string;
  clock_reads : nat;
  metrics : font_spec -> Q -> string -> list string
}.

(** A method call: the new object state and what was drawn. *)
Definition op : Type := state -> state * list event.

(** *** Page geometry: [FPDF()] is A4 portrait in millimetres *)

(** Points per millimetre is 72 / 25.4; A4 is 595.28 x 841.89 points. *)
Definition page_w : Q := 595.28 * 25.4 / 72.
Definition page_h : Q := 841.89 * 25.4 / 72.
(** Default margins: 28.35 points, and a tenth of it inside cells. *)
Definition l_margin : Q := 28.35 * 25.4 / 72.
Definition t_margin : Q := l_margin.
Definition r_margin : Q := l_margin.
Definition c_margin : Q := l_margin / 10.

Definition Qlt_bool (a b : Q) : bool := negb (Qle_bool b a).

(** *** Field updates *)

Definition with_page (n : nat) (s : state) : state :=
  mkState n (cur_x s) (cur_y s) (gfx s) (in_footer s) (auto_page_break s)
          (b_margin s) (str_alias_nb_pages s) (clock_reads s) (metrics s).
Definition with_x (v : Q) (s : state) : state :=
  mkState (page s) v (cur_y s) (gfx s) (in_footer s) (auto_page_break s)
          (b_margin s) (str_alias_nb_pages s) (clock_reads s) (metrics s).
Definition with_y (v : Q) (s : state) : state :=
  mkState (page s) (cur_x s) v (gfx s) (in_footer s) (auto_page_break s)
          (b_margin s) (str_alias_nb_pages s) (clock_reads s) (metrics s).
Definition with_gfx (g : style) (s : state) : state :=
  mkState (page s) (cur_x s) (cur_y s) g (in_footer s) (auto_page_break s)
          (b_margin s) (str_alias_nb_pages s) (clock_reads s) (metrics s).
Definition with_in_footer (b : bool) (s : state) : state :=
  mkState (page s) (cur_x s) (cur_y s) (gfx s) b (auto_page_break s)
          (b_margin s) (str_alias_nb_pages s) (clock_reads s) (metrics s).
Definition with_auto (b : bool) (m : Q) (s : state) : state :=
  mkState (page s) (cur_x s) (cur_y s) (gfx s) (in_footer s) b
          m (str_alias_nb_pages s) (clock_reads s) (metrics s).
Definition with_alias (a : option string) (s : state) : state :=
  mkState (page s) (cur_x s) (cur_y s) (gfx s) (in_footer s)
          (auto_page_break s) (b_margin s) a (clock_reads s) (metrics s).
Definition tick (s : state) : state :=
  mkState (page s) (cur_x s) (cur_y s) (gfx s) (in_footer s)
          (auto_page_break s) (b_margin s) (str_alias_nb_pages s)
          (S (clock_reads s)) (metrics s).

Definition with_font (f : font_spec) (g : style) : style :=
  mkStyle f (text_color g) (fill_color g) (draw_color g) (line_width g).
Definition with_text_color (c : color) (g : style) : style :=
  mkStyle (font g) c (fill_color g) (draw_color g) (line_width g).
Definition with_fill_color (c : color) (g : style) : style :=
  mkStyle (font g) (text_color g) c (draw_color g) (line_width g).
Definition with_draw_color (c : color) (g : style) : style :=
  mkStyle (font g) (text_color g) (fill_color g) c (line_width g).
Definition with_line_width (w : Q) (g : style) : style :=
  mkStyle (font g) (text_color g) (fill_color g) (draw_color g) w.

(** *** Sequencing *)

Definition nop : op := fun s => (s, []).
Definition upd (f : state -> state) : op := fun s => (f s, []).
Definition emit (p : state -> prim) : op :=
  fun s => (s, [mkEvent (page s) Content (p s)]).
Definition seq (f g : op) : op :=
  fun s => let r1 := f s in
           let r2 := g (fst r1) in (fst r2, snd r1 ++ snd r2).
(** A call whose arguments read the object first ([self.get_y()], ...). *)
Definition reading (k : state -> op) : op := fun s => k s s.
Definition tagged (o : origin) (f : op) : op :=
  fun s => let r := f s in
           (fst r, map (fun e => mkEvent (ev_page e) o (ev_prim e)) (snd r)).

Declare Scope op_scope.
Delimit Scope op_scope with op.
Bind Scope op_scope with op.
Notation "f ;; g" := (seq f g) (at level 61, right associativity) : op_scope.
Local Open Scope op_scope.

(** *** Queries *)

Definition get_x (s : state) : Q := cur_x s.
Definition get_y (s : state) : Q := cur_y s.
Definition page_no (s : state) : nat := page s.
Definition page_break_trigger (s : state) : Q := page_h - b_margin s.

(** [will_page_break]: the cell of height [h] would cross the trigger,
    page breaking is on, and the footer is not being drawn. *)
Definition will_page_break (h : Q) (s : state) : bool :=
  Qlt_bool (page_break_trigger s) (cur_y s + h)
  && negb (in_footer s) && auto_page_break s.

(** *** Style and cursor setters *)

Definition set_font (fam : family) (st : font_style) (size : Q) : op :=
  upd (fun s => with_gfx (with_font (mkFont fam st size) (gfx s)) s).
Definition set_text_color (c : color) : op :=
  upd (fun s => with_gfx (with_text_color c (gfx s)) s).
Definition set_fill_color (c : color) : op :=
  upd (fun s => with_gfx (with_fill_color c (gfx s)) s).
Definition set_draw_color (c : color) : op :=
  upd (fun s => with_gfx (with_draw_color c (gfx s)) s).
Definition set_line_width (w : Q) : op :=
  upd (fun s => with_gfx (with_line_width w (gfx s)) s).

(** A negative coordinate counts from the bottom (right) edge. *)
Definition set_y (v : Q) : op :=
  upd (fun s => with_y (if Qle_bool 0 v then v else page_h + v)
                       (with_x l_margin s)).
Definition set_x (v : Q) : op :=
  upd (fun s => with_x (if Qle_bool 0 v then v else page_w + v) s).
Definition set_xy (vx vy : Q) : op := set_y vy ;; set_x vx.
Definition ln (h : Q) : op :=
  upd (fun s => with_y (cur_y s + h) (with_x l_margin s)).

Definition alias_nb_pages : op := upd (with_alias (Some "{nb}"%string)).
Definition set_auto_page_break (auto : bool) (margin : Q) : op :=
  upd (with_auto auto margin).

(** *** Shapes *)

Definition rect (rx ry rw rh : Q) : op :=
  emit (fun s => Rect rx ry rw rh (fill_color (gfx s))).
Definition line (x1 y1 x2 y2 : Q) : op :=
  emit (fun s => Line x1 y1 x2 y2 (draw_color (gfx s)) (line_width (gfx s))).

(** *** Pages *)

(** The two hooks a subclass overrides.  [FPDF]'s own do nothing. *)
Record fpdf_class := mkClass {
  header : op;
  footer : op
}.

Definition FPDF : fpdf_class := mkClass nop nop.

(** [add_page]: close the current page with its footer (drawn with page
    breaking off), start the next one at the top-left margin, draw its
    header, then put font, colours and line width back to what they
    were before the call. *)
Definition add_page (cls : fpdf_class) : op :=
  fun s =>
    let g := gfx s in
    let r1 :=
      (if (0 <? page s)%nat
       then upd (with_in_footer true) ;; tagged InFooter (footer cls) ;;
            upd (with_in_footer false)
       else nop) s in
    let s2 := with_gfx g (with_y t_margin (with_x l_margin
                (with_page (S (page (fst r1))) (fst r1)))) in
    let r3 := tagged InHeader (header cls) s2 in
    (with_gfx g (fst r3), snd r1 ++ snd r3).

(** An automatic break keeps the column the cell was going to use. *)
Definition perform_page_break (cls : fpdf_class) : op :=
  reading (fun s0 => add_page cls ;; upd (with_x (cur_x s0))).

Definition place (nx : xpos) (ny : ypos) (x0 w h : Q) (s : state) : state :=
  let s1 := match nx with
            | RIGHT => with_x (x0 + w) s
            | LMARGIN => with_x l_margin s
            | LEFT => with_x x0 s
            end in
  match ny with
  | TOP => s1
  | NEXT => with_y (cur_y s + h) s1
  end.

(** [cell]: width 0 means up to the right margin; the page break, if
    one is due, happens before anything is drawn. *)
Definition cell (cls : fpdf_class) (w h : Q) (txt : text) (al : align)
           (nx : xpos) (ny : ypos) (fill : bool) : op :=
  reading (fun s0 =>
    let w' := if Qeq_bool w 0 then page_w - r_margin - cur_x s0 else w in
    (if will_page_break h s0 then perform_page_break cls else nop) ;;
    emit (fun s => Cell (cur_x s) (cur_y s) w' h txt (font (gfx s))
                        (text_color (gfx s)) al
                        (if fill then Some (fill_color (gfx s)) else None)) ;;
    upd (fun s => place nx ny (cur_x s) w' h s)).

(** The lines of a [multi_cell] are cells one under the other: every one
    but the last returns to the left edge of the block, the last one
    leaves the cursor to the right of the block on the next line. *)
Fixpoint multi_cell_lines (cls : fpdf_class) (w h : Q) (fill : bool)
         (lines : list string) : op :=
  match lines with
  | [] => nop
  | [l] => cell cls w h [Lit l] AlignJ RIGHT NEXT fill
  | l :: rest =>
      cell cls w h [Lit l] AlignJ LEFT NEXT fill ;;
      multi_cell_lines cls w h fill rest
  end.

(** The text is broken at the cell width less the two inner margins; an
    empty result still draws one empty line. *)
Definition break_lines (w : Q) (txt : string) (s : state) : list string :=
  match metrics s (font (gfx s)) (w - 2 * c_margin) txt with
  | [] => [EmptyString]
  | ls => ls
  end.

Definition multi_cell (cls : fpdf_class) (w h : Q) (txt : string)
           (fill : bool) : op :=
  reading (fun s0 =>
    let w' := if Qeq_bool w 0 then page_w - r_margin - cur_x s0 else w in
    multi_cell_lines cls w' h fill (break_lines w' txt s0)).

(** Python's [str] on a page number. *)
Definition str (n : nat) : string := NilEmpty.string_of_uint (Nat.to_uint n).

(** A fresh [FPDF()] object: no page yet, black on default line width,
    automatic page breaks two centimetres from the bottom. *)
Definition new_fpdf (m : font_spec -> Q -> string -> list string) : state :=
  mkState 0 l_margin t_margin
          (mkStyle (mkFont NoFamily Regular 12) (0, 0, 0)%nat (0, 0, 0)%nat
                   (0, 0, 0)%nat (0.567 * 25.4 / 72))
          false true (2 * l_margin) None 0 m.

(** *** Finishing the document *)

Fixpoint has_prefix (p s : string) : bool :=
  match p, s with
  | EmptyString, _ => true
  | String a p', String b s' => Ascii.eqb a b && has_prefix p' s'
  | String _ _, EmptyString => false
  end.

(** [replace_from skip old new s]: Python's [s.replace(old, new)], left
    to right without overlap; [skip] characters of a match just replaced
    remain to be dropped. *)
Fixpoint replace_from (skip : nat) (old new s : string) : string :=
  match s with
  | EmptyString => EmptyString
  | String c s' =>
      match skip with
      | S k => replace_from k old new s'
      | O =>
          if has_prefix old s
          then (new ++ replace_from (String.length old - 1) old new s')%string
          else String c (replace_from 0 old new s')
      end
  end.

Definition str_replace (old new s : string) : string :=
  match old with
  | EmptyString => s
  | _ => replace_from 0 old new s
  end.

Definition resolve_piece (alias nb : string) (p : piece) : piece :=
  match p with
  | Lit s => Lit (str_replace alias nb s)
  | Stamp fmt t => Stamp fmt t
  end.

Definition resolve_prim (alias nb : string) (p : prim) : prim :=
  match p with
  | Cell cx cy cw ch txt f tc al bg =>
      Cell cx cy cw ch (map (resolve_piece alias nb) txt) f tc al bg
  | other => other
  end.

Definition resolve_event (alias nb : string) (e : event) : event :=
  mkEvent (ev_page e) (ev_origin e) (resolve_prim alias nb (ev_prim e)).

(** Closing: a document without pages gets one, and the last page gets
    its footer. *)
Definition close (cls : fpdf_class) : op :=
  reading (fun s0 => if (page s0 =? 0)%nat then add_page cls else nop) ;;
  upd (with_in_footer true) ;;
  tagged InFooter (footer cls) ;;
  upd (with_in_footer false).

(** [output]: close the document, then write the number of pages over
    every occurrence of the alias in what was [drawn]. *)
Definition output (cls : fpdf_class) (s : state) (drawn : list event)
  : list event :=
  let r := close cls s in
  match str_alias_nb_pages (fst r) with
  | Some alias =>
      map (resolve_event alias (str (page (fst r)))) (drawn ++ snd r)
  | None => drawn ++ snd r
  end.

End Backend.

Import Backend.
Local Open Scope op_scope.
Local Open Scope string_scope.

(** The methods [build_pdf] calls on its [FeaturePDF] object: the two
    hooks and the block helpers. *)
Record feature_pdf := mkFeaturePDF {
  hooks : fpdf_class;
  dark_bg : op;
  section_title : string -> op;
  sub_title : string -> op;
  body_text : string -> op;
  bullet : string -> Q -> op;
  code_block : string -> op;
  status_badge : string -> string -> op
}.

(** The calls the numbered sections of [build_pdf] make on the object,
    one constructor per kind of call. *)
Inductive call :=
| AddPage
| DarkBg
| SectionTitle (title : string)
| SubTitle (title : string)
| BodyText (txt : string)
| Bullet (txt : string) (indent : Q)
| CodeBlock (txt : string)
| StatusBadge (label status : string)
| Ln (h : Q)
| SetFont (fam : family) (st : font_style) (size : Q)
| SetTextColor (c : color)
| CellLine (w h : Q) (txt : string).

Definition run (pdf : feature_pdf) (c : call) : op :=
  match c with
  | AddPage => add_page (hooks pdf)
  | DarkBg => dark_bg pdf
  | SectionTitle t => section_title pdf t
  | SubTitle t => sub_title pdf t
  | BodyText t => body_text pdf t
  | Bullet t i => bullet pdf t i
  | CodeBlock t => code_block pdf t
  | StatusBadge l st => status_badge pdf l st
  | Ln h => ln h
  | SetFont fam st size => set_font fam st size
  | SetTextColor c => set_text_color c
  | CellLine w h t => cell (hooks pdf) w h [Lit t] AlignL LMARGIN NEXT false
  end.

Fixpoint run_all (pdf : feature_pdf) (cs : list call) : op :=
  match cs with
  | [] => nop
  | c :: rest => run pdf c ;; run_all pdf rest
  end.

(** ** [FeaturePDF] of active-mode-breakdown.py *)

Module Active.

Definition BG_PRIMARY : color := (10, 10, 15)%nat.
Definition BG_CARD : color := (22, 22, 42)%nat.
Definition BG_CODE : color := (16, 16, 30)%nat.
Definition TEXT_PRIMARY : color := (232, 232, 240)%nat.
Definition TEXT_SECONDARY : color := (160, 160, 184)%nat.
Definition TEXT_MUTED : color := (106, 106, 128)%nat.
Definition ACCENT : color := (121, 134, 203)%nat.
Definition ACCENT_DIM : color := (80, 90, 150)%nat.
Definition SUCCESS : color := (102, 187, 106)%nat.
Definition DANGER : color := (239, 83, 80)%nat.
Definition CODE_TEXT : color := (180, 191, 255)%nat.

Section Methods.

(** [now k] is what the clock shows at the [k]-th call of
    [datetime.now()] in the run. *)
Variable now : nat -> nat.

(** The hooks run inside [add_page]; their own [cell] is the library's,
    written here against the plain [FPDF] hooks (see
    [header_cell_fits] for why no page break is due there). *)
Definition header : op :=
  set_fill_color BG_PRIMARY ;;
  rect 0 0 210 18 ;;
  set_font Helvetica StyleB 9 ;;
  set_text_color TEXT_MUTED ;;
  set_y 5 ;;
  cell FPDF 0 8
       [Lit "AutoNateAI Learning Hub  |  Admin/User Mode Switch Build Breakdown"]
       AlignL RIGHT TOP false ;;
  set_draw_color ACCENT ;;
  set_line_width 0.4 ;;
  line 10 16 200 16 ;;
  ln 12.

Definition footer : op :=
  set_y (-15) ;;
  set_font Helvetica StyleI 7.5 ;;
  set_text_color TEXT_MUTED ;;
  reading (fun self =>
    upd tick ;;
    cell FPDF 0 10
         [Lit ("Page " ++ str (page_no self) ++ "/{nb}  |  Generated ");
          Stamp "%B %d, %Y %I:%M %p" (now (clock_reads self));
          Lit "  |  CONFIDENTIAL"]
         AlignC RIGHT TOP false).

Definition cls : fpdf_class := mkClass header footer.

Definition dark_bg : op :=
  set_fill_color BG_PRIMARY ;;
  rect 0 0 210 297.

Definition section_title (title : string) : op :=
  set_font Helvetica StyleB 14 ;;
  set_text_color TEXT_PRIMARY ;;
  ln 4 ;;
  cell cls 0 10 [Lit title] AlignL LMARGIN NEXT false ;;
  set_draw_color ACCENT ;;
  set_line_width 0.4 ;;
  reading (fun self => line 10 (get_y self) 85 (get_y self)) ;;
  ln 4.

Definition sub_title (title : string) : op :=
  set_font Helvetica StyleB 11 ;;
  set_text_color ACCENT ;;
  ln 2 ;;
  cell cls 0 8 [Lit title] AlignL LMARGIN NEXT false ;;
  ln 1.

Definition body_text (txt : string) : op :=
  set_font Helvetica Regular 10 ;;
  set_text_color TEXT_SECONDARY ;;
  multi_cell cls 0 5.5 txt false ;;
  ln 2.

Definition bullet (txt : string) (indent : Q) : op :=
  reading (fun self =>
    let x := get_x self in
    set_font Helvetica Regular 10 ;;
    set_text_color TEXT_SECONDARY ;;
    set_x (x + indent) ;;
    set_text_color ACCENT ;;
    cell cls 6 5.5 [Lit ">"] AlignL RIGHT TOP false ;;
    set_text_color TEXT_SECONDARY ;;
    multi_cell cls 0 5.5 txt false ;;
    ln 1).

Definition code_block (txt : string) : op :=
  set_font Courier Regular 8.5 ;;
  set_fill_color BG_CODE ;;
  set_text_color CODE_TEXT ;;
  set_x 15 ;;
  multi_cell cls 180 4.5 txt true ;;
  ln 3.

Definition status_badge (label status : string) : op :=
  set_font Helvetica StyleB 9 ;;
  (let (set_color, badge) :=
     if String.eqb status "complete" then
       (set_text_color SUCCESS, "[COMPLETE]")
     else if String.eqb status "in-progress" then
       (set_text_color (255, 183, 77)%nat, "[IN PROGRESS]")
     else
       (set_text_color TEXT_MUTED, "[PLANNED]") in
   set_color ;;
   cell cls 0 6 [Lit ("  " ++ label ++ "  " ++ badge)]
        AlignL LMARGIN NEXT false) ;;
  ln 1.

Definition FeaturePDF : feature_pdf :=
  mkFeaturePDF cls dark_bg section_title sub_title body_text bullet
               code_block status_badge.

(** *** The page-level parts of [build_pdf] *)

Definition cover_page : op :=
  add_page cls ;;
  dark_bg ;;
  ln 35 ;;
  set_draw_color ACCENT ;;
  set_line_width 2 ;;
  reading (fun pdf => line 40 (get_y pdf) 170 (get_y pdf)) ;;
  ln 8 ;;
  set_font Helvetica StyleB 30 ;;
  set_text_color TEXT_PRIMARY ;;
  cell cls 0 14 [Lit "Admin / User Mode Switch"] AlignC LMARGIN NEXT false ;;
  cell cls 0 14 [Lit "Build Breakdown"] AlignC LMARGIN NEXT false ;;
  ln 6 ;;
  set_line_width 0.5 ;;
  reading (fun pdf => line 70 (get_y pdf) 140 (get_y pdf)) ;;
  ln 10 ;;
  set_font Helvetica Regular 12 ;;
  set_text_color ACCENT ;;
  cell cls 0 8 [Lit "AutoNateAI Learning Hub"] AlignC LMARGIN NEXT false ;;
  ln 2 ;;
  set_font Helvetica Regular 10 ;;
  set_text_color TEXT_SECONDARY ;;
  reading (fun pdf =>
    upd tick ;;
    cell cls 0 8
         [Lit "Last Updated: "; Stamp "%B %d, %Y" (now (clock_reads pdf))]
         AlignC LMARGIN NEXT false) ;;
  ln 2 ;;
  set_font Helvetica StyleI 9 ;;
  set_text_color TEXT_MUTED ;;
  cell cls 0 8 [Lit "Version 1.0  |  Status: Pushed to Main"]
       AlignC LMARGIN NEXT false ;;
  ln 30 ;;
  set_fill_color BG_CARD ;;
  reading (fun pdf =>
    let y := get_y pdf in
    rect 15 y 180 38 ;;
    set_xy 20 (y + 4)) ;;
  set_font Helvetica StyleB 10 ;;
  set_text_color ACCENT ;;
  cell cls 0 6 [Lit "Document Purpose"] AlignL LMARGIN NEXT false ;;
  set_x 20 ;;
  set_font Helvetica Regular 9.5 ;;
  set_text_color TEXT_SECONDARY ;;
  multi_cell cls 170 5
    ("This document provides a technical build breakdown of the Admin/User Mode Switch feature "
     ++ "for the AutoNateAI Learning Hub. It covers the architecture, service design, toggle UI, "
     ++ "Firestore persistence, file changes, and how the feature integrates with the existing "
     ++ "RBAC system across all 11 dashboard pages.")
    false.

Definition toc : list string :=
  [ "1.  Feature Overview";
    "2.  Problem Statement";
    "3.  Architecture";
    "4.  ActiveModeService API";
    "5.  Toggle UI Design";
    "6.  Firestore & localStorage Schema";
    "7.  Dashboard Page Integration";
    "8.  Special Page Handling";
    "9.  File Change Map";
    "10. Security Considerations";
    "11. Verification Checklist" ].

Fixpoint toc_rows (items : list string) : op :=
  match items with
  | [] => nop
  | item :: rest =>
      set_font Helvetica Regular 11 ;;
      set_text_color TEXT_PRIMARY ;;
      set_draw_color (40, 40, 60)%nat ;;
      reading (fun pdf =>
        let y := get_y pdf + 6 in
        line 15 y 195 y) ;;
      cell cls 0 9 [Lit ("  " ++ item)] AlignL LMARGIN NEXT false ;;
      toc_rows rest
  end.

Definition table_of_contents : op :=
  add_page cls ;;
  dark_bg ;;
  section_title "Table of Contents" ;;
  toc_rows toc.

Definition checklist : list (string * bool) :=
  [ ("ActiveModeService loads on all 11 dashboard pages", true);
    ("Toggle appears in sidebar for admin users only", true);
    ("Toggle hidden for non-admin users", true);
    ("Admin mode shows Basketball + Admin sections", true);
    ("User mode hides Basketball + Admin sections", true);
    ("Mode persists across page navigations (localStorage)", true);
    ("Mode persists across browser sessions (Firestore)", true);
    ("Toggle works in collapsed sidebar (labels hidden)", true);
    ("Toggle works in mobile sidebar drawer", true);
    ("index.html: isAdminUser variable set correctly", true);
    ("index.html: org basketball check works in user mode", true);
    ("basketball-sim.html: access gate unchanged", true);
    ("basketball-sim.html: basketball section always visible", true);
    ("No RBAC admin-section display blocks remain in pages", true);
    ("Script tag present on all 11 pages", true);
    ("Non-admin users see no toggle, no admin sections", true);
    ("Firestore write uses merge (no field overwrite)", true);
    ("localStorage cache cleared on logout", false) ].

(** The loop [for label, done in checklist]. *)
Fixpoint checklist_rows (rows : list (string * bool)) : op :=
  match rows with
  | [] => nop
  | (label, done) :: rest =>
      (let (set_color, check) :=
         if done then (set_text_color SUCCESS, "[x]")
         else (set_text_color DANGER, "[ ]") in
       set_color ;;
       set_font Courier StyleB 9.5 ;;
       cell cls 10 6 [Lit check] AlignL RIGHT TOP false) ;;
      set_font Helvetica Regular 10 ;;
      set_text_color TEXT_SECONDARY ;;
      cell cls 0 6 [Lit label] AlignL LMARGIN NEXT false ;;
      checklist_rows rest
  end.

Definition checklist_section : op :=
  add_page cls ;;
  dark_bg ;;
  section_title "11. Verification Checklist" ;;
  body_text "Items to verify before this feature is considered production-ready:" ;;
  ln 2 ;;
  checklist_rows checklist.

(** [build_pdf], with the calls of the numbered sections between the
    table of contents and the checklist given as [sections].  The result
    is what [pdf.output] writes out, page by page. *)
Definition build_pdf (m : font_spec -> Q -> string -> list string)
           (sections : list call) : list event :=
  let r :=
    (alias_nb_pages ;;
     set_auto_page_break true 20 ;;
     cover_page ;;
     table_of_contents ;;
     run_all FeaturePDF sections ;;
     checklist_section) (new_fpdf m) in
  output cls (fst r) (snd r).

End Methods.

End Active.

(** ** [FeaturePDF] of feed-feature-breakdown.py *)

Module Feed.

Definition BG_PRIMARY : color := (10, 10, 15)%nat.
Definition BG_CARD : color := (22, 22, 42)%nat.
Definition BG_CODE : color := (16, 16, 30)%nat.
Definition TEXT_PRIMARY : color := (232, 232, 240)%nat.
Definition TEXT_SECONDARY : color := (160, 160, 184)%nat.
Definition TEXT_MUTED : color := (106, 106, 128)%nat.
Definition ACCENT : color := (121, 134, 203)%nat.
Definition ACCENT_DIM : color := (80, 90, 150)%nat.
Definition SUCCESS : color := (102, 187, 106)%nat.
Definition DANGER : color := (239, 83, 80)%nat.
Definition CODE_TEXT : color := (180, 191, 255)%nat.

Section Methods.

Variable now : nat -> nat.

Definition header : op :=
  set_fill_color BG_PRIMARY ;;
  rect 0 0 210 18 ;;
  set_font Helvetica StyleB 9 ;;
  set_text_color TEXT_MUTED ;;
  set_y 5 ;;
  cell FPDF 0 8
       [Lit "AutoNateAI Learning Hub  |  Feed & Post Management Feature Breakdown"]
       AlignL RIGHT TOP false ;;
  set_draw_color ACCENT ;;
  set_line_width 0.4 ;;
  line 10 16 200 16 ;;
  ln 12.

Definition footer : op :=
  set_y (-15) ;;
  set_font Helvetica StyleI 7.5 ;;
  set_text_color TEXT_MUTED ;;
  reading (fun self =>
    upd tick ;;
    cell FPDF 0 10
         [Lit ("Page " ++ str (page_no self) ++ "/{nb}  |  Generated ");
          Stamp "%B %d, %Y %I:%M %p" (now (clock_reads self));
          Lit "  |  CONFIDENTIAL"]
         AlignC RIGHT TOP false).

Definition cls : fpdf_class := mkClass header footer.

Definition dark_bg : op :=
  set_fill_color BG_PRIMARY ;;
  rect 0 0 210 297.

Definition section_title (title : string) : op :=
  set_font Helvetica StyleB 14 ;;
  set_text_color TEXT_PRIMARY ;;
  ln 4 ;;
  cell cls 0 10 [Lit title] AlignL LMARGIN NEXT false ;;
  set_draw_color ACCENT ;;
  set_line_width 0.4 ;;
  reading (fun self => line 10 (get_y self) 85 (get_y self)) ;;
  ln 4.

Definition sub_title (title : string) : op :=
  set_font Helvetica StyleB 11 ;;
  set_text_color ACCENT ;;
  ln 2 ;;
  cell cls 0 8 [Lit title] AlignL LMARGIN NEXT false ;;
  ln 1.

Definition body_text (txt : string) : op :=
  set_font Helvetica Regular 10 ;;
  set_text_color TEXT_SECONDARY ;;
  multi_cell cls 0 5.5 txt false ;;
  ln 2.

Definition bullet (txt : string) (indent : Q) : op :=
  reading (fun self =>
    let x := get_x self in
    set_font Helvetica Regular 10 ;;
    set_text_color TEXT_SECONDARY ;;
    set_x (x + indent) ;;
    set_text_color ACCENT ;;
    cell cls 6 5.5 [Lit ">"] AlignL RIGHT TOP false ;;
    set_text_color TEXT_SECONDARY ;;
    multi_cell cls 0 5.5 txt false ;;
    ln 1).

Definition code_block (txt : string) : op :=
  set_font Courier Regular 8.5 ;;
  set_fill_color BG_CODE ;;
  set_text_color CODE_TEXT ;;
  reading (fun self =>
    let y_start := get_y self in
    set_x 15 ;;
    multi_cell cls 180 4.5 txt true ;;
    ln 3).

Definition status_badge (label status : string) : op :=
  set_font Helvetica StyleB 9 ;;
  (let (set_color, badge) :=
     if String.eqb status "complete" then
       (set_text_color SUCCESS, "[COMPLETE]")
     else if String.eqb status "in-progress" then
       (set_text_color (255, 183, 77)%nat, "[IN PROGRESS]")
     else
       (set_text_color TEXT_MUTED, "[PLANNED]") in
   set_color ;;
   cell cls 0 6 [Lit ("  " ++ label ++ "  " ++ badge)]
        AlignL LMARGIN NEXT false) ;;
  ln 1.

Definition card_start : op :=
  set_fill_color BG_CARD.

Definition card_end : op := nop.

Definition FeaturePDF : feature_pdf :=
  mkFeaturePDF cls dark_bg section_title sub_title body_text bullet
               code_block status_badge.

(** *** The page-level parts of [build_pdf] *)

Definition cover_page : op :=
  add_page cls ;;
  dark_bg ;;
  ln 35 ;;
  set_draw_color ACCENT ;;
  set_line_width 2 ;;
  reading (fun pdf => line 40 (get_y pdf) 170 (get_y pdf)) ;;
  ln 8 ;;
  set_font Helvetica StyleB 30 ;;
  set_text_color TEXT_PRIMARY ;;
  cell cls 0 14 [Lit "Feed & Post Management"] AlignC LMARGIN NEXT false ;;
  cell cls 0 14 [Lit "Feature Breakdown"] AlignC LMARGIN NEXT false ;;
  ln 6 ;;
  set_line_width 0.5 ;;
  reading (fun pdf => line 70 (get_y pdf) 140 (get_y pdf)) ;;
  ln 10 ;;
  set_font Helvetica Regular 12 ;;
  set_text_color ACCENT ;;
  cell cls 0 8 [Lit "AutoNateAI Learning Hub"] AlignC LMARGIN NEXT false ;;
  ln 2 ;;
  set_font Helvetica Regular 10 ;;
  set_text_color TEXT_SECONDARY ;;
  reading (fun pdf =>
    upd tick ;;
    cell cls 0 8
         [Lit "Last Updated: "; Stamp "%B %d, %Y" (now (clock_reads pdf))]
         AlignC LMARGIN NEXT false) ;;
  ln 2 ;;
  set_font Helvetica StyleI 9 ;;
  set_text_color TEXT_MUTED ;;
  cell cls 0 8 [Lit "Version 2.0  |  Status: Pushed to Main"]
       AlignC LMARGIN NEXT false ;;
  ln 30 ;;
  set_fill_color BG_CARD ;;
  reading (fun pdf =>
    let y := get_y pdf in
    rect 15 y 180 38 ;;
    set_xy 20 (y + 4)) ;;
  set_font Helvetica StyleB 10 ;;
  set_text_color ACCENT ;;
  cell cls 0 6 [Lit "Document Purpose"] AlignL LMARGIN NEXT false ;;
  set_x 20 ;;
  set_font Helvetica Regular 9.5 ;;
  set_text_color TEXT_SECONDARY ;;
  multi_cell cls 170 5
    ("This document provides a comprehensive technical and product breakdown of the Feed & Post "
     ++ "Management features being built for the AutoNateAI Learning Hub. It covers the architecture, "
     ++ "user experience decisions, file-level changes, and the rationale for how each piece is "
     ++ "tailored specifically for a coding education platform rather than a generic social feed.")
    false.

Definition toc : list string :=
  [ "1.  Executive Summary";
    "2.  Why a Social Feed for AutoNateAI?";
    "3.  Feature Overview & Status";
    "4.  Post Card 3-Dot Menu - Architecture";
    "5.  Feed & Post Settings - Architecture";
    "6.  Profile Picture Upload - Architecture";
    "7.  Profile Page Updates";
    "8.  Navbar Consistency Fixes";
    "9.  File Change Map";
    "10. Data Model & Firestore Schema";
    "11. UI/UX Design Decisions";
    "12. Security Considerations";
    "13. Rollout Checklist" ].

Fixpoint toc_rows (items : list string) : op :=
  match items with
  | [] => nop
  | item :: rest =>
      set_font Helvetica Regular 11 ;;
      set_text_color TEXT_PRIMARY ;;
      set_draw_color (40, 40, 60)%nat ;;
      reading (fun pdf =>
        let y := get_y pdf + 6 in
        line 15 y 195 y) ;;
      cell cls 0 9 [Lit ("  " ++ item)] AlignL LMARGIN NEXT false ;;
      toc_rows rest
  end.

Definition table_of_contents : op :=
  add_page cls ;;
  dark_bg ;;
  section_title "Table of Contents" ;;
  toc_rows toc.

Definition checklist : list (string * bool) :=
  [ ("Post 3-dot dropdown renders correctly (dark theme)", true);
    ("Post 3-dot dropdown renders correctly (light theme)", true);
    ("Edit Post modal opens, populates, and saves", true);
    ("Delete Post confirms and removes post", true);
    ("Copy Link copies URL to clipboard", true);
    ("Report Post shows feedback toast", true);
    ("Mute Author shows feedback toast", true);
    ("Dropdown closes on outside click", true);
    ("Event delegation survives post re-render", true);
    ("Feed Settings UI renders in Settings page", true);
    ("Feed Settings load from Firestore on page load", true);
    ("Feed Settings auto-save to Firestore on change", true);
    ("Settings/Feed sidebar links on all dashboard pages", true);
    ("Profile picture upload with instant preview", true);
    ("Profile picture saved to Firebase Storage + Auth + Firestore", true);
    ("Edit Profile links to Settings page", true);
    ("Bio/status always visible with auto-save", true);
    ("Feed mobile sidebar matches dashboard standard", true);
    ("Notes link added to challenges.html sidebar", true);
    ("Navbar audit PDF published to main", true);
    ("All feature code pushed to main", true);
    ("Feed page reads user settings on load", false);
    ("Firestore Security Rules enforce post ownership", false);
    ("Report/Mute persist to Firestore collections", false);
    ("Privacy settings enforced in feed queries", false);
    ("End-to-end testing with multiple user accounts", false) ].

(** The loop [for label, done in checklist]. *)
Fixpoint checklist_rows (rows : list (string * bool)) : op :=
  match rows with
  | [] => nop
  | (label, done) :: rest =>
      (let (set_color, check) :=
         if done then (set_text_color SUCCESS, "[x]")
         else (set_text_color DANGER, "[ ]") in
       set_color ;;
       set_font Courier StyleB 9.5 ;;
       cell cls 10 6 [Lit check] AlignL RIGHT TOP false) ;;
      set_font Helvetica Regular 10 ;;
      set_text_color TEXT_SECONDARY ;;
      cell cls 0 6 [Lit label] AlignL LMARGIN NEXT false ;;
      checklist_rows rest
  end.

Definition checklist_section : op :=
  add_page cls ;;
  dark_bg ;;
  section_title "13. Rollout Checklist" ;;
  body_text "Items to complete before this feature is considered production-ready:" ;;
  ln 2 ;;
  checklist_rows checklist.

(** [build_pdf], with the calls of the numbered sections between the
    table of contents and the checklist given as [sections].  The result
    is what [pdf.output] writes out, page by page. *)
Definition build_pdf (m : font_spec -> Q -> string -> list string)
           (sections : list call) : list event :=
  let r :=
    (alias_nb_pages ;;
     set_auto_page_break true 20 ;;
     cover_page ;;
     table_of_contents ;;
     run_all FeaturePDF sections ;;
     checklist_section) (new_fpdf m) in
  output cls (fst r) (snd r).

End Methods.

End Feed.


(** ** The two scripts side by side *)

Inductive script := ActiveMode | FeedFeature.

Definition pdf_of (sc : script) (now : nat -> nat) : feature_pdf :=
  match sc with
  | ActiveMode => Active.FeaturePDF now
  | FeedFeature => Feed.FeaturePDF now
  end.

(** The header leaves the cursor 17 mm from the top edge. *)
Definition content_top : Q := 5 + 12.

Definition Qnat (n : nat) : Q := inject_Z (Z.of_nat n).

(** The cell width actually used for a requested width [w] at column [x]. *)
Definition cell_width (w x : Q) : Q :=
  if Qeq_bool w 0 then page_w - r_margin - x else w.

(** The rows a [multi_cell] draws when no page break falls inside it. *)
Fixpoint rows_at (pg : nat) (x y w h : Q) (g : style) (fill : bool)
         (lines : list string) : list event :=
  match lines with
  | [] => []
  | l :: rest =>
      mkEvent pg Content
              (Cell x y w h [Lit l] (font g) (text_color g) AlignJ
                    (if fill then Some (fill_color g) else None))
      :: rows_at pg x (y + h) w h g fill rest
  end.

(** ** Measures of a block *)






(** [after f P s]: [P] holds of the state and the drawing that the call
    [f] leaves when run from [s]. *)
Definition after (f : op) (P : state -> list event -> Prop) (s : state)
  : Prop :=
  P (fst (f s)) (snd (f s)).

(** ** What a page break draws *)

Definition header_title (sc : script) : string :=
  match sc with
  | ActiveMode =>
      "AutoNateAI Learning Hub  |  Admin/User Mode Switch Build Breakdown"
  | FeedFeature =>
      "AutoNateAI Learning Hub  |  Feed & Post Management Feature Breakdown"
  end.

(** The header band of page [pg]. *)
Definition header_drawn (sc : script) (pg : nat) : list event :=
  [ mkEvent pg InHeader (Rect 0 0 210 18 Active.BG_PRIMARY);
    mkEvent pg InHeader
      (Cell l_margin 5 (page_w - r_margin - l_margin) 8
            [Lit (header_title sc)] (mkFont Helvetica StyleB 9)
            Active.TEXT_MUTED AlignL None);
    mkEvent pg InHeader (Line 10 16 200 16 Active.ACCENT 0.4) ].

(** The footer text as drawn, total still the alias. *)
Definition footer_text (now : nat -> nat) (pg reads : nat) : text :=
  [ Lit ("Page " ++ str pg ++ "/{nb}  |  Generated ");
    Stamp "%B %d, %Y %I:%M %p" (now reads);
    Lit "  |  CONFIDENTIAL" ].

(** The footer band of page [pg], drawn at the [reads]-th clock read. *)
Definition footer_drawn (now : nat -> nat) (pg reads : nat) : list event :=
  [ mkEvent pg InFooter
      (Cell l_margin (page_h + -15) (page_w - r_margin - l_margin) 10
            (footer_text now pg reads) (mkFont Helvetica StyleI 7.5)
            Active.TEXT_MUTED AlignC None) ].

(** The object after [add_page]. *)
Definition paged (s : state) : state :=
  mkState (S (page s)) l_margin content_top (gfx s)
          (if (0 <? page s)%nat then false else in_footer s)
          (auto_page_break s) (b_margin s) (str_alias_nb_pages s)
          (if (0 <? page s)%nat then S (clock_reads s) else clock_reads s)
          (metrics s).

Definition is_content (e : event) : bool :=
  match ev_origin e with
  | Content => true
  | _ => false
  end.

(** ** Reading a drawing *)

Definition cell_x (e : event) : option Q :=
  match ev_prim e with
  | Cell cx _ _ _ _ _ _ _ _ => Some cx
  | _ => None
  end.

Definition cell_y (e : event) : option Q :=
  match ev_prim e with
  | Cell _ cy _ _ _ _ _ _ _ => Some cy
  | _ => None
  end.

Definition cell_w (e : event) : option Q :=
  match ev_prim e with
  | Cell _ _ cw _ _ _ _ _ _ => Some cw
  | _ => None
  end.



(** ** A line breaker for short lines

    Text whose lines are all shorter than the cell is broken at its line
    feeds only. *)
Fixpoint split_lines (acc s : string) : list string :=
  match s with
  | EmptyString => [acc]
  | String c s' =>
      if Ascii.eqb c "010"%char then acc :: split_lines EmptyString s'
      else split_lines (acc ++ String c EmptyString) s'
  end.

Definition by_newline : font_spec -> Q -> string -> list string :=
  fun _ _ t => split_lines EmptyString t.

Definition newline : string := String "010"%char EmptyString.

(** ** Sample runs *)

(** A clock that stands still. *)
Definition now0 : nat -> nat := fun _ => O.

(** The object right after the first [add_page] and [dark_bg] of a run
    whose fonts break text at line feeds. *)
Definition top_of_page : state :=
  fst ((set_auto_page_break true 20 ;;
        add_page (hooks (pdf_of ActiveMode now0)) ;;
        dark_bg (pdf_of ActiveMode now0)) (new_fpdf by_newline)).

(** The same run after thirty-three one-line paragraphs: the cursor is
    12.5 mm above the page break trigger. *)
Definition near_bottom : state :=
  fst (run_all (pdf_of ActiveMode now0) (repeat (BodyText "x") 33)
               top_of_page).

Definition three_lines : string := "a" ++ newline ++ "b" ++ newline ++ "c".

Definition courier : font_spec := mkFont Courier Regular 8.5.

(** The lines of a code block and the style its rows are drawn in. *)
Definition code_lines (s : state) (txt : string) : list string :=
  break_lines 180 txt (with_gfx (with_font courier (gfx s)) s).


(** ** The page-level parts of either script *)

Definition cover_page_of (sc : script) (now : nat -> nat) : op :=
  match sc with
  | ActiveMode => Active.cover_page now
  | FeedFeature => Feed.cover_page now
  end.

Definition table_of_contents_of (sc : script) (now : nat -> nat) : op :=
  match sc with
  | ActiveMode => Active.table_of_contents now
  | FeedFeature => Feed.table_of_contents now
  end.

Definition checklist_rows_of (sc : script) (now : nat -> nat)
  : list (string * bool) -> op :=
  match sc with
  | ActiveMode => Active.checklist_rows now
  | FeedFeature => Feed.checklist_rows now
  end.

Definition checklist_of (sc : script) : list (string * bool) :=
  match sc with
  | ActiveMode => Active.checklist
  | FeedFeature => Feed.checklist
  end.

Definition build_pdf_of (sc : script) (now : nat -> nat)
  : (font_spec -> Q -> string -> list string) -> list call -> list event :=
  match sc with
  | ActiveMode => Active.build_pdf now
  | FeedFeature => Feed.build_pdf now
  end.

(** ** Checklist rows as they should look *)

(** Column, width, text, font and colour of a cell. *)
Definition cell_view (e : event)
  : option (Q * Q * text * font_spec * color) :=
  match ev_prim e with
  | Cell cx _ cw _ txt f tc _ _ => Some (cx, cw, txt, f, tc)
  | _ => None
  end.

(** The cells of the rows from column [x] on: a glyph cell 10 mm wide,
    "[x]" in the success colour or "[ ]" in the danger colour, then the
    label from the next column to the right margin; the rows after the
    first start at the left margin. *)
Fixpoint rows_view (x : Q) (rows : list (string * bool))
  : list (option (Q * Q * text * font_spec * color)) :=
  match rows with
  | [] => []
  | (label, done) :: rest =>
      Some (x, 10, [Lit (if done then "[x]" else "[ ]")],
            mkFont Courier StyleB 9.5,
            if done then Active.SUCCESS else Active.DANGER)
      :: Some (x + 10, page_w - r_margin - (x + 10), [Lit label],
               mkFont Helvetica Regular 10, Active.TEXT_SECONDARY)
      :: rows_view l_margin rest
  end.

(** Section 3 of [build_pdf] in feed-feature-breakdown.py, call by call:
    a section title, six sub-titles and twenty-six status badges, none of
    which depends on how text is broken into lines. *)
Definition feed_feature_overview : list call :=
  [ AddPage;
    DarkBg;
    SectionTitle "3. Feature Overview & Status";
    SubTitle "Post Card 3-Dot Dropdown Menu";
    StatusBadge "HTML Template & Conditional Rendering" "complete";
    StatusBadge "CSS Styling (Dark + Light Theme)" "complete";
    StatusBadge "Event Delegation Click Handling" "complete";
    StatusBadge "Edit Post Modal (create, populate, save)" "complete";
    StatusBadge "Delete Post (confirm, remove, Firestore sync)" "complete";
    StatusBadge "Copy Link to Clipboard" "complete";
    StatusBadge "Report Post (toast feedback)" "complete";
    StatusBadge "Mute Author (toast feedback)" "complete";
    StatusBadge "Firestore-backed mute/report persistence" "planned";
    Ln 4;
    SubTitle "Feed & Post Settings (Settings Page)";
    StatusBadge "Feed Preferences UI (3 controls)" "complete";
    StatusBadge "Post Defaults UI (3 controls)" "complete";
    StatusBadge "Feed Privacy UI (3 controls)" "complete";
    StatusBadge "Load settings from Firestore" "complete";
    StatusBadge "Auto-save with debounce to Firestore" "complete";
    StatusBadge "Feed page reads settings on load" "planned";
    Ln 4;
    SubTitle "Profile Picture Upload (Settings Page)";
    StatusBadge "Avatar preview with instant local display" "complete";
    StatusBadge "Firebase Storage upload with progress bar" "complete";
    StatusBadge "Parallel Auth + Firestore photoURL update" "complete";
    StatusBadge "Remove avatar functionality" "complete";
    Ln 4;
    SubTitle "Profile Page Updates";
    StatusBadge "Edit Profile links to Settings page" "complete";
    StatusBadge "Bio/status always visible with auto-save" "complete";
    Ln 4;
    SubTitle "Feed Page Mobile Sidebar";
    StatusBadge "Mobile sidebar toggle matches dashboard standard" "complete";
    StatusBadge "localStorage sidebar collapse persistence" "complete";
    Ln 4;
    SubTitle "Navbar Consistency";
    StatusBadge "Notes link added to challenges.html sidebar" "complete";
    StatusBadge "Feed + Settings links on all dashboard pages" "complete";
    StatusBadge "Navbar audit PDF published" "complete" ].

(** ** Looking at a finished document *)

Definition on_page (p : nat) (doc : list event) : list event :=
  filter (fun e => (ev_page e =? p)%nat) doc.

(** The full-page fill that [dark_bg] draws. *)
Definition is_background (e : event) : bool :=
  match ev_prim e with
  | Rect rx ry rw rh _ =>
      Qeq_bool rx 0 && Qeq_bool ry 0 && Qeq_bool rw 210 && Qeq_bool rh 297
  | _ => false
  end.

Definition is_header (e : event) : bool :=
  match ev_origin e with
  | InHeader => true
  | _ => false
  end.

Definition is_footer (e : event) : bool :=
  match ev_origin e with
  | InFooter => true
  | _ => false
  end.

(** ** Shape of a run

    From page [p] to page [q], a drawing is content on the current page,
    interrupted by page turns: the footer of the page being left followed
    by the header of the next. *)
Inductive trace (sc : script) (now : nat -> nat)
  : nat -> list event -> nat -> Prop :=
| trace_nil p : trace sc now p [] p
| trace_content p e o q :
    ev_origin e = Content -> ev_page e = p ->
    trace sc now p o q -> trace sc now p (e :: o) q
| trace_turn p r o q :
    trace sc now (S p) o q ->
    trace sc now p
          (footer_drawn now p r ++ header_drawn sc (S p) ++ o)%list q.

(** The object as [build_pdf] keeps it between calls once the first page
    is open. *)
Definition good (s : state) : Prop :=
  b_margin s = 20 /\ in_footer s = false /\ (1 <= page s)%nat.

(** A call that keeps the object [good] and draws a [trace]. *)
Definition steady (sc : script) (now : nat -> nat) (f : op) : Prop :=
  forall s,
    good s ->
    good (fst (f s))
    /\ str_alias_nb_pages (fst (f s)) = str_alias_nb_pages s
    /\ trace sc now (page s) (snd (f s)) (page (fst (f s))).

(** ** Rows of a paragraph *)

(** Column, width, text, font, text colour and fill of a cell. *)
Definition row_look (e : event)
  : option (Q * Q * text * font_spec * color * option color) :=
  match ev_prim e with
  | Cell cx _ cw _ txt f tc _ bg => Some (cx, cw, txt, f, tc, bg)
  | _ => None
  end.

Definition helvetica10 : font_spec := mkFont Helvetica Regular 10.

(** The lines [body_text] hands to the page from state [s]. *)
Definition body_lines (s : state) (txt : string) : list string :=
  break_lines (page_w - r_margin - cur_x s) txt
              (with_gfx (with_font helvetica10 (gfx s)) s).

(** The footer cell of the page it is drawn on. *)
Definition footer_of_own_page (now : nat -> nat) (e : event) : Prop :=
  exists r, [e] = footer_drawn now (ev_page e) r.

(** A short section: a title, a paragraph and a code sample. *)
Definition sample_calls : list call :=
  [ SectionTitle "3. Architecture";
    BodyText "The service is a singleton.";
    CodeBlock three_lines;
    StatusBadge "Toggle UI" "planned" ].

(** ** The page as [dark_bg] fills it *)

Definition within (lo v hi : Q) : bool := Qle_bool lo v && Qle_bool v hi.

(** The primitive lies inside the 210 x 297 rectangle [dark_bg] fills. *)
Definition inside_background (p : prim) : bool :=
  match p with
  | Rect rx ry rw rh _ =>
      within 0 rx 210 && within 0 (rx + rw) 210
      && within 0 ry 297 && within 0 (ry + rh) 297
  | Line x1 y1 x2 y2 _ _ =>
      within 0 x1 210 && within 0 x2 210
      && within 0 y1 297 && within 0 y2 297
  | Cell cx cy cw ch _ _ _ _ _ =>
      within 0 cx 210 && within 0 (cx + cw) 210
      && within 0 cy 297 && within 0 (cy + ch) 297
  end.

(** ** Rows of the table of contents *)

Definition toc_rows_of (sc : script) (now : nat -> nat)
  : list string -> op :=
  match sc with
  | ActiveMode => Active.toc_rows now
  | FeedFeature => Feed.toc_rows now
  end.

Definition toc_of (sc : script) : list string :=
  match sc with
  | ActiveMode => Active.toc
  | FeedFeature => Feed.toc
  end.

Definition helvetica11 : font_spec := mkFont Helvetica Regular 11.

Definition toc_rule (pg : nat) (y lw : Q) : event :=
  mkEvent pg Content (Line 15 (y + 6) 195 (y + 6) (40, 40, 60)%nat lw).

Definition toc_entry (pg : nat) (x y : Q) (item : string) : event :=
  mkEvent pg Content
    (Cell x y (page_w - r_margin - x) 9 [Lit ("  " ++ item)] helvetica11
          Active.TEXT_PRIMARY AlignL None).

(** Rows of the table of contents from column [x] and height [y] on one
    page: each row is a rule 6 mm below its top and then its entry, 9 mm
    high; the rows after the first start at the left margin. *)
Fixpoint toc_drawn (pg : nat) (x y lw : Q) (items : list string)
  : list event :=
  match items with
  | [] => []
  | item :: rest =>
      toc_rule pg y lw :: toc_entry pg x y item
      :: toc_drawn pg l_margin (y + 9) lw rest
  end.

(** The object 2.5 mm above the page break trigger. *)
Definition at_the_bottom : state := fst (ln 10 near_bottom).

(** Number of [pdf.add_page()] calls in a list of calls. *)
Fixpoint explicit_pages (cs : list call) : nat :=
  match cs with
  | [] => 0
  | AddPage :: rest => S (explicit_pages rest)
  | _ :: rest => explicit_pages rest
  end.

(** * Facts about the drawing model *)

Section BackendFacts.

Lemma Qlt_bool_false (a b : Q) : b <= a -> Qlt_bool a b = false.
Proof.
  intro H. unfold Qlt_bool.
  apply (proj2 (Qle_bool_iff b a)) in H. now rewrite H.
Qed.

Lemma Qlt_bool_true (a b : Q) : a < b -> Qlt_bool a b = true.
Proof.
  intro H. unfold Qlt_bool.
  destruct (Qle_bool b a) eqn:E; [|reflexivity].
  apply Qle_bool_iff in E. lra.
Qed.

Lemma will_page_break_fits (h : Q) (s : state) :
  cur_y s + h <= page_break_trigger s -> will_page_break h s = false.
Proof.
  intro H. unfold will_page_break. now rewrite Qlt_bool_false.
Qed.

Lemma will_page_break_in_footer (h : Q) (s : state) :
  in_footer s = true -> will_page_break h s = false.
Proof.
  intro H. unfold will_page_break. rewrite H.
  now rewrite andb_false_r.
Qed.

Lemma cell_no_break cls w h txt al nx ny fill s :
  will_page_break h s = false ->
  cell cls w h txt al nx ny fill s
  = (place nx ny (cur_x s) (cell_width w (cur_x s)) h s,
     [mkEvent (page s) Content
        (Cell (cur_x s) (cur_y s) (cell_width w (cur_x s)) h txt
              (font (gfx s)) (text_color (gfx s)) al
              (if fill then Some (fill_color (gfx s)) else None))]).
Proof.
  intro H. unfold cell, reading, seq. rewrite H. reflexivity.
Qed.

Lemma cell_width_idem (w x : Q) :
  cell_width (cell_width w x) x = cell_width w x.
Proof.
  unfold cell_width. destruct (Qeq_bool w 0) eqn:E.
  - destruct (Qeq_bool (page_w - r_margin - x) 0); reflexivity.
  - now rewrite E.
Qed.

Lemma break_lines_nonempty w txt s : break_lines w txt s <> [].
Proof.
  unfold break_lines. destruct (metrics s _ _ txt); congruence.
Qed.

Lemma Qnat_S (n : nat) : Qnat (S n) == Qnat n + 1.
Proof.
  unfold Qnat. rewrite Nat2Z.inj_succ, <- Z.add_1_r, inject_Z_plus.
  reflexivity.
Qed.

Lemma Qnat_nonneg (n : nat) : 0 <= Qnat n.
Proof.
  unfold Qnat. change 0 with (inject_Z 0). rewrite <- Zle_Qle. lia.
Qed.

(** A [multi_cell] that fits above the trigger draws its rows one under
    the other on the current page and moves the cursor below the last. *)
Lemma multi_cell_lines_fit cls w h fill lines :
  0 <= h -> lines <> [] ->
  forall s,
    cur_y s + Qnat (length lines) * h <= page_break_trigger s ->
    let r := multi_cell_lines cls w h fill lines s in
    cur_y (fst r) == cur_y s + Qnat (length lines) * h
    /\ page (fst r) = page s
    /\ gfx (fst r) = gfx s
    /\ snd r = rows_at (page s) (cur_x s) (cur_y s)
                       (cell_width w (cur_x s)) h (gfx s) fill lines.
Proof.
  intros Hh. induction lines as [|l rest IH]; [congruence|].
  intros _ s Hfit. cbn zeta.
  cbn [length] in Hfit. rewrite Qnat_S in Hfit.
  pose proof (Qnat_nonneg (length rest)) as Hn.
  assert (Hb : will_page_break h s = false).
  { apply will_page_break_fits. nra. }
  destruct rest as [|l2 rest'].
  - cbn [multi_cell_lines]. rewrite (cell_no_break _ _ _ _ _ _ _ _ _ Hb).
    cbn. repeat split; try reflexivity. change (Qnat 1) with 1. lra.
  - change (multi_cell_lines cls w h fill (l :: l2 :: rest'))
      with (seq (cell cls w h [Lit l] AlignJ LEFT NEXT fill)
                (multi_cell_lines cls w h fill (l2 :: rest'))).
    unfold seq. rewrite (cell_no_break _ _ _ _ _ _ _ _ _ Hb).
    cbn [fst snd].
    set (s1 := place LEFT NEXT (cur_x s) (cell_width w (cur_x s)) h s).
    assert (Hs1 : cur_y s1 = cur_y s + h /\ cur_x s1 = cur_x s
                  /\ page s1 = page s /\ gfx s1 = gfx s
                  /\ page_break_trigger s1 = page_break_trigger s)
      by (repeat split).
    destruct Hs1 as (Hy & Hx & Hp & Hg & Ht).
    specialize (IH ltac:(congruence) s1).
    rewrite Hy, Ht in IH.
    specialize (IH ltac:(nra)). cbn zeta in IH.
    destruct (multi_cell_lines cls w h fill (l2 :: rest') s1) as [s2 o2].
    cbn [fst snd] in *. destruct IH as (IHy & IHp & IHg & IHo).
    repeat split.
    + rewrite IHy. rewrite (Qnat_S (length (l2 :: rest'))). lra.
    + congruence.
    + congruence.
    + rewrite IHo. rewrite ?Hx, ?Hp, ?Hg, ?Hy. reflexivity.
Qed.

End BackendFacts.

(** * Running a method step by step *)

Section StepRules.

Variable P : state -> list event -> Prop.

Lemma after_seq f g s :
  after f (fun s1 o1 => after g (fun s2 o2 => P s2 (o1 ++ o2)) s1) s ->
  after (seq f g) P s.
Proof. unfold after, seq. cbn. auto. Qed.

Lemma after_upd u s : P (u s) [] -> after (upd u) P s.
Proof. unfold after, upd. cbn. auto. Qed.

Lemma after_nop s : P s [] -> after nop P s.
Proof. unfold after, nop. cbn. auto. Qed.

Lemma after_emit p s :
  P s [mkEvent (page s) Content (p s)] -> after (emit p) P s.
Proof. unfold after, emit. cbn. auto. Qed.

Lemma after_weaken (Q : state -> list event -> Prop) f s :
  after f Q s -> (forall s1 o1, Q s1 o1 -> P s1 o1) -> after f P s.
Proof. unfold after. auto. Qed.

Lemma after_reading k s : after (k s) P s -> after (reading k) P s.
Proof. unfold after, reading. auto. Qed.

Lemma after_cell_no_break cls w h txt al nx ny (fill : bool) s :
  will_page_break h s = false ->
  P (place nx ny (cur_x s) (cell_width w (cur_x s)) h s)
    [mkEvent (page s) Content
       (Cell (cur_x s) (cur_y s) (cell_width w (cur_x s)) h txt
             (font (gfx s)) (text_color (gfx s)) al
             (if fill then Some (fill_color (gfx s)) else None))] ->
  after (cell cls w h txt al nx ny fill) P s.
Proof.
  intros H HP. unfold after. rewrite (cell_no_break _ _ _ _ _ _ _ _ _ H).
  exact HP.
Qed.

Lemma after_multi_cell_fits cls w h txt (fill : bool) s :
  0 <= h ->
  cur_y s
  + Qnat (length (break_lines (cell_width w (cur_x s)) txt s)) * h
  <= page_break_trigger s ->
  (forall s1,
      cur_y s1
      == cur_y s
         + Qnat (length (break_lines (cell_width w (cur_x s)) txt s)) * h ->
      page s1 = page s ->
      gfx s1 = gfx s ->
      P s1 (rows_at (page s) (cur_x s) (cur_y s)
                    (cell_width w (cur_x s)) h (gfx s) fill
                    (break_lines (cell_width w (cur_x s)) txt s))) ->
  after (multi_cell cls w h txt fill) P s.
Proof.
  intros Hh Hfit HP. unfold after, multi_cell, reading.
  fold (cell_width w (cur_x s)).
  destruct (multi_cell_lines_fit cls (cell_width w (cur_x s)) h fill
              (break_lines (cell_width w (cur_x s)) txt s) Hh
              (break_lines_nonempty _ _ _) s Hfit) as (Hy & Hp & Hg & Ho).
  rewrite Ho, cell_width_idem. apply HP; assumption.
Qed.

End StepRules.

(** Normal form of a state built by field updates. *)
Ltac flat :=
  unfold with_page, with_x, with_y, with_gfx, with_in_footer, with_auto,
    with_alias, tick, with_font, with_text_color, with_fill_color,
    with_draw_color, with_line_width, place, get_x, get_y, page_no,
    page_break_trigger in *;
  repeat match goal with
         | |- context [Qle_bool ?u ?v] =>
             let b := eval vm_compute in (Qle_bool u v) in
             lazymatch b with
             | true => change (Qle_bool u v) with true
             | false => change (Qle_bool u v) with false
             end
         end;
  cbn [fst snd page cur_x cur_y gfx in_footer auto_page_break b_margin
       str_alias_nb_pages clock_reads metrics
       font text_color fill_color draw_color line_width app
       ev_page ev_origin ev_prim] in *.

(** One call of a method body, when no page break is due. *)
Ltac step :=
  lazymatch goal with
  | |- after (seq _ _) _ _ => apply after_seq
  | |- after nop _ _ => apply after_nop
  | |- after (reading _) _ _ => apply after_reading
  | |- after (emit _) _ _ => apply after_emit
  | |- after (upd _) _ _ => apply after_upd
  | |- after (cell _ _ _ _ _ _ _ _) _ _ =>
      apply after_cell_no_break;
      [ first [ apply will_page_break_fits; flat; lra
              | apply will_page_break_in_footer; reflexivity ] | ]
  | |- after (multi_cell _ _ _ _ _) _ _ =>
      apply after_multi_cell_fits; [ lra | | intros ? ? ? ? ]
  end;
  flat.

Ltac open_setters :=
  unfold set_font, set_text_color, set_fill_color, set_draw_color,
    set_line_width, set_x, set_y, set_xy, ln, rect, line,
    alias_nb_pages, set_auto_page_break.

(** * Cursor after a block *)

Section CursorFacts.





End CursorFacts.

(** * Page breaks *)

Section PageBreaks.

Lemma run_eq (f : op) (s s1 : state) (o1 : list event) :
  after f (fun s' o' => s' = s1 /\ o' = o1) s -> f s = (s1, o1).
Proof.
  unfold after. intros [H1 H2]. rewrite (surjective_pairing (f s)).
  congruence.
Qed.

Lemma tagged_eq (o : origin) (f : op) (s s1 : state) (o1 : list event) :
  f s = (s1, o1) ->
  tagged o f s = (s1, map (fun e => mkEvent (ev_page e) o (ev_prim e)) o1).
Proof. intro H. unfold tagged. now rewrite H. Qed.

(** The one cell of the header sits at 5 mm and is 8 mm high: with the
    trigger at 13 mm or lower on the page no break is due inside it. *)
Lemma header_cell_fits (s : state) :
  5 + 8 <= page_break_trigger s ->
  will_page_break 8 (with_y 5 (with_x l_margin s)) = false.
Proof. intro H. apply will_page_break_fits. exact H. Qed.

Lemma header_run (sc : script) (now : nat -> nat) (s : state) :
  5 + 8 <= page_break_trigger s ->
  header (hooks (pdf_of sc now)) s
  = (mkState (page s) l_margin content_top
             (mkStyle (mkFont Helvetica StyleB 9) Active.TEXT_MUTED
                      Active.BG_PRIMARY Active.ACCENT 0.4)
             (in_footer s) (auto_page_break s) (b_margin s)
             (str_alias_nb_pages s) (clock_reads s) (metrics s),
     map (fun e => mkEvent (ev_page e) Content (ev_prim e))
         (header_drawn sc (page s))).
Proof.
  intro H. apply run_eq.
  destruct sc; cbn [pdf_of hooks header Active.FeaturePDF Feed.FeaturePDF
                    Active.cls Feed.cls];
    unfold Active.header, Feed.header; open_setters;
    destruct s as [p x y g f a bm al cr m]; flat; repeat step;
    split; reflexivity.
Qed.

Lemma footer_run (sc : script) (now : nat -> nat) (s : state) :
  in_footer s = true ->
  footer (hooks (pdf_of sc now)) s
  = (mkState (page s) (l_margin + (page_w - r_margin - l_margin))
             (page_h + -15)
             (mkStyle (mkFont Helvetica StyleI 7.5) Active.TEXT_MUTED
                      (fill_color (gfx s)) (draw_color (gfx s))
                      (line_width (gfx s)))
             true (auto_page_break s) (b_margin s)
             (str_alias_nb_pages s) (S (clock_reads s)) (metrics s),
     map (fun e => mkEvent (ev_page e) Content (ev_prim e))
         (footer_drawn now (page s) (clock_reads s))).
Proof.
  intro H. apply run_eq.
  destruct sc; cbn [pdf_of hooks footer Active.FeaturePDF Feed.FeaturePDF
                    Active.cls Feed.cls];
    unfold Active.footer, Feed.footer; open_setters;
    destruct s as [p x y g f a bm al cr m]; flat; subst f; repeat step;
    split; reflexivity.
Qed.

(** [add_page] of either script: the footer of the page being left, the
    header of the new one, the cursor under the header and the style as
    it was. *)
Lemma add_page_eq (sc : script) (now : nat -> nat) (s : state) :
  5 + 8 <= page_break_trigger s ->
  add_page (hooks (pdf_of sc now)) s
  = (paged s,
     ((if (0 <? page s)%nat
       then footer_drawn now (page s) (clock_reads s) else [])
      ++ header_drawn sc (S (page s)))%list).
Proof.
  intro H. unfold add_page.
  set (r1 := (if (0 <? page s)%nat then _ else nop) s).
  assert (Hr1 : r1 = if (0 <? page s)%nat
                     then (with_in_footer false
                             (fst (footer (hooks (pdf_of sc now))
                                          (with_in_footer true s))),
                           footer_drawn now (page s) (clock_reads s))
                     else (s, [])).
  { subst r1. destruct (0 <? page s)%nat; [|reflexivity].
    unfold seq, upd. cbn [fst snd].
    erewrite tagged_eq by (apply footer_run; reflexivity).
    rewrite (footer_run sc now (with_in_footer true s) eq_refl).
    reflexivity. }
  rewrite Hr1. clear Hr1 r1.
  rewrite (footer_run sc now (with_in_footer true s) eq_refl).
  unfold paged.
  destruct (0 <? page s)%nat; cbn [fst snd];
    (erewrite tagged_eq by (apply header_run; exact H));
    destruct s; reflexivity.
Qed.

(** Whatever the hooks draw, nothing of a page break counts as content
    and the style survives it. *)
Lemma tagged_no_content (o : origin) (f : op) (s : state) :
  o <> Content -> filter is_content (snd (tagged o f s)) = [].
Proof.
  intro Ho. unfold tagged. cbn [snd].
  induction (snd (f s)) as [|e l IH]; [reflexivity|].
  cbn [map filter]. unfold is_content at 1. cbn [ev_origin].
  destruct o; [congruence| |]; exact IH.
Qed.

Lemma add_page_no_content cls s :
  filter is_content (snd (add_page cls s)) = [].
Proof.
  unfold add_page. cbv zeta. cbn [snd]. rewrite filter_app.
  rewrite (tagged_no_content InHeader) by discriminate.
  destruct (0 <? page s)%nat; [|reflexivity].
  unfold seq, upd. cbn [fst snd app]. rewrite filter_app.
  rewrite (tagged_no_content InFooter) by discriminate. reflexivity.
Qed.

Lemma add_page_gfx cls s : gfx (fst (add_page cls s)) = gfx s.
Proof. reflexivity. Qed.

(** A cell always draws exactly one content primitive, in the style the
    object had when [cell] was called, page break or not. *)
Lemma cell_content cls w h txt al nx ny (fill : bool) s :
  exists pg cy,
    filter is_content (snd (cell cls w h txt al nx ny fill s))
    = [mkEvent pg Content
         (Cell (cur_x s) cy (cell_width w (cur_x s)) h txt
               (font (gfx s)) (text_color (gfx s)) al
               (if fill then Some (fill_color (gfx s)) else None))]
    /\ gfx (fst (cell cls w h txt al nx ny fill s)) = gfx s.
Proof.
  unfold cell, reading. fold (cell_width w (cur_x s)).
  destruct (will_page_break h s).
  - exists (page (fst (add_page cls s))), (cur_y (fst (add_page cls s))).
    unfold perform_page_break, reading, seq, upd, emit.
    cbn [fst snd]. rewrite !filter_app, add_page_no_content.
    split; [reflexivity|]. destruct nx, ny; reflexivity.
  - exists (page s), (cur_y s). unfold seq, nop, upd, emit. cbn [fst snd].
    split; [reflexivity|]. destruct nx, ny; reflexivity.
Qed.

Lemma will_page_break_over (h : Q) (s : state) :
  page_break_trigger s < cur_y s + h ->
  auto_page_break s = true -> in_footer s = false ->
  will_page_break h s = true.
Proof.
  intros H Ha Hf. unfold will_page_break.
  now rewrite Qlt_bool_true, Ha, Hf.
Qed.

(** A cell that does not fit: the page is turned first, and the cell
    lands under the header of the next page, in its own column. *)
Lemma cell_break (sc : script) (now : nat -> nat) w h txt al nx ny
      (fill : bool) (s : state) :
  will_page_break h s = true ->
  5 + 8 <= page_break_trigger s ->
  cell (hooks (pdf_of sc now)) w h txt al nx ny fill s
  = (place nx ny (cur_x s) (cell_width w (cur_x s)) h
           (with_x (cur_x s) (paged s)),
     (((if (0 <? page s)%nat
        then footer_drawn now (page s) (clock_reads s) else [])
       ++ header_drawn sc (S (page s)))
      ++ [mkEvent (S (page s)) Content
            (Cell (cur_x s) content_top (cell_width w (cur_x s)) h txt
                  (font (gfx s)) (text_color (gfx s)) al
                  (if fill then Some (fill_color (gfx s)) else None))])%list).
Proof.
  intros Hb Ht. unfold cell, reading. rewrite Hb.
  fold (cell_width w (cur_x s)).
  unfold perform_page_break, reading, seq, upd, emit.
  rewrite (add_page_eq sc now s Ht). cbn [fst snd].
  rewrite app_nil_r. reflexivity.
Qed.

Lemma footer_no_content (b : bool) (now : nat -> nat) (pg reads : nat) :
  filter is_content (if b then footer_drawn now pg reads else []) = [].
Proof. destruct b; reflexivity. Qed.

Lemma header_no_content (sc : script) (pg : nat) :
  filter is_content (header_drawn sc pg) = [].
Proof. reflexivity. Qed.

Lemma rows_at_content pg x y w h g fill lines :
  filter is_content (rows_at pg x y w h g fill lines)
  = rows_at pg x y w h g fill lines.
Proof.
  revert y. induction lines as [|l ls IH]; intro y; [reflexivity|].
  cbn [rows_at filter]. unfold is_content at 1. cbn [ev_origin].
  now rewrite IH.
Qed.



End PageBreaks.

(** * Status badges *)

(** C10.  A status string that is neither "complete" nor "in-progress",
    whatever it is, makes [status_badge] draw the label with the
    "[PLANNED]" badge in the muted text colour: the method is defined on
    every string, and its one content primitive is that cell, also when a
    page break falls before it. *)
Theorem status_badge_any_other_status
        (sc : script) (now : nat -> nat) (label status : string) (s : state) :
  status <> "complete" ->
  status <> "in-progress" ->
  exists pg cx cy cw,
    filter is_content (snd (status_badge (pdf_of sc now) label status s))
    = [mkEvent pg Content
         (Cell cx cy cw 6 [Lit ("  " ++ label ++ "  " ++ "[PLANNED]")]
               (mkFont Helvetica StyleB 9) Active.TEXT_MUTED AlignL None)].
Proof.
  intros H1 H2.
  apply String.eqb_neq in H1. apply String.eqb_neq in H2.
  destruct sc; cbn [pdf_of status_badge Active.FeaturePDF Feed.FeaturePDF];
    unfold Active.status_badge, Feed.status_badge; rewrite H1, H2;
    open_setters; unfold seq at 1 2 3; unfold upd; cbn [fst snd app];
    rewrite app_nil_r;
    match goal with
    | |- context [cell ?c ?w ?h ?t ?a ?nx ?ny ?f ?st] =>
        destruct (cell_content c w h t a nx ny f st) as (pg & cy & He & _);
        exists pg, (cur_x st), cy, (cell_width w (cur_x st));
        rewrite He; reflexivity
    end.
Qed.

Lemma status_badge_any_other_status_witness :
  exists pg cx cy cw,
    filter is_content
      (snd (status_badge (pdf_of ActiveMode (fun _ => O)) "Mute author"
              "planed" (new_fpdf (fun _ _ t => [t]))))
    = [mkEvent pg Content
         (Cell cx cy cw 6 [Lit ("  " ++ "Mute author" ++ "  " ++ "[PLANNED]")]
               (mkFont Helvetica StyleB 9) Active.TEXT_MUTED AlignL None)].
Proof.
  apply (status_badge_any_other_status ActiveMode (fun _ => O)
           "Mute author" "planed" (new_fpdf (fun _ _ t => [t])));
    discriminate.
Defined.

(** * Bullets *)

Section Bullets.




End Bullets.

(** * Code blocks *)

Section CodeBlocks.





End CodeBlocks.

(** * The checklist *)

Section Checklist.

Lemma cell_column_after cls w h txt al nx ny (fill : bool) s :
  cur_x (fst (cell cls w h txt al nx ny fill s))
  = match nx with
    | RIGHT => cur_x s + cell_width w (cur_x s)
    | LMARGIN => l_margin
    | LEFT => cur_x s
    end.
Proof.
  unfold cell, reading. fold (cell_width w (cur_x s)).
  destruct (will_page_break h s);
    unfold perform_page_break, reading, seq, nop, upd, emit; cbn [fst snd];
    destruct nx, ny; reflexivity.
Qed.

(** What any cell leaves behind, page break or not. *)
Lemma after_cell_any (P : state -> list event -> Prop)
      cls w h txt al nx ny (fill : bool) s :
  (forall s1 o1,
      map cell_view (filter is_content o1)
      = [Some (cur_x s, cell_width w (cur_x s), txt, font (gfx s),
               text_color (gfx s))] ->
      gfx s1 = gfx s ->
      cur_x s1 = match nx with
                 | RIGHT => cur_x s + cell_width w (cur_x s)
                 | LMARGIN => l_margin
                 | LEFT => cur_x s
                 end ->
      P s1 o1) ->
  after (cell cls w h txt al nx ny fill) P s.
Proof.
  intro H. unfold after. apply H.
  - destruct (cell_content cls w h txt al nx ny fill s) as (pg & cy & E & _).
    rewrite E. reflexivity.
  - destruct (cell_content cls w h txt al nx ny fill s) as (pg & cy & _ & E).
    exact E.
  - apply cell_column_after.
Qed.

(** C7.  The checklist loop draws, for every row of its list and in the
    order of the list, a glyph cell of fixed width 10 followed by the
    label cell in the next column: the glyph is "[x]" in the success
    colour when the row is done and "[ ]" in the danger colour when it is
    not, and the label is in the secondary text colour.  Page breaks
    between rows add nothing to, and take nothing from, these cells. *)
Theorem checklist_rows_match_flags
        (sc : script) (now : nat -> nat) (rows : list (string * bool))
        (s : state) :
  map cell_view
      (filter is_content (snd (checklist_rows_of sc now rows s)))
  = rows_view (cur_x s) rows.
Proof.
  revert s. induction rows as [|[label done] rest IH]; intro s.
  - destruct sc; reflexivity.
  - change (after (checklist_rows_of sc now ((label, done) :: rest))
              (fun _ o => map cell_view (filter is_content o)
                          = rows_view (cur_x s) ((label, done) :: rest)) s).
    assert (IH' : forall s1, cur_x s1 = l_margin ->
              after (checklist_rows_of sc now rest)
                (fun _ o => map cell_view (filter is_content o)
                            = rows_view l_margin rest) s1).
    { intros s1 E. unfold after. rewrite IH, E. reflexivity. }
    clear IH. cbn [rows_view].
    destruct sc; cbn [checklist_rows_of] in *;
      cbn [Active.checklist_rows Feed.checklist_rows];
      fold (Active.checklist_rows now) in *;
      fold (Feed.checklist_rows now) in *;
      destruct done; open_setters;
      destruct s as [p x y g f a bm al cr m]; flat;
      repeat step;
      (apply after_cell_any; intros s1 o1 V1 G1 X1; flat; repeat step;
       apply after_cell_any; intros s2 o2 V2 G2 X2; flat;
       apply (after_weaken _ _ _ _ (IH' s2 X2)); intros _ o0 V0;
       rewrite !filter_app, !map_app, V1, V2, V0;
       cbn [cell_width]; rewrite ?X1; flat; reflexivity).
Qed.

End Checklist.

(** * Page decoration *)

Section Decoration.

(** C2 fails on the feed report's own section 3.  Rendered after the
    cover and the table of contents, it starts on page 3, which gets the
    full-page fill from the explicit [dark_bg] call, and overflows onto
    page 4, started by the automatic page break: page 4 has its header,
    its footer and content, but no full-page background fill. *)
Theorem auto_break_page_has_no_background :
  let doc := build_pdf_of FeedFeature now0 by_newline feed_feature_overview in
  existsb is_background (on_page 3 doc) = true
  /\ existsb is_content (on_page 4 doc) = true
  /\ existsb is_header (on_page 4 doc) = true
  /\ existsb is_footer (on_page 4 doc) = true
  /\ existsb is_background (on_page 4 doc) = false.
Proof. vm_compute. repeat split. Qed.

End Decoration.

(** * Shape of every run *)

Section Shape.

Variable sc : script.
Variable now : nat -> nat.

Lemma trace_app p o1 q o2 r :
  trace sc now p o1 q -> trace sc now q o2 r ->
  trace sc now p (o1 ++ o2)%list r.
Proof.
  intros H1 H2. induction H1.
  - exact H2.
  - cbn [app]. apply trace_content; auto.
  - rewrite <- !app_assoc. apply trace_turn. auto.
Qed.

Lemma good_trigger s : good s -> 5 + 8 <= page_break_trigger s.
Proof.
  intros (Hb & _). unfold page_break_trigger. rewrite Hb.
  vm_compute. discriminate.
Qed.

Lemma steady_nop : steady sc now nop.
Proof. intros s H. repeat split; try apply H. apply trace_nil. Qed.

Lemma steady_upd (u : state -> state) :
  (forall s, b_margin (u s) = b_margin s /\ in_footer (u s) = in_footer s
             /\ page (u s) = page s
             /\ str_alias_nb_pages (u s) = str_alias_nb_pages s) ->
  steady sc now (upd u).
Proof.
  intros Hu s (Hb & Hf & Hp). destruct (Hu s) as (E1 & E2 & E3 & E4).
  unfold upd, good. cbn [fst snd]. rewrite E1, E2, E3, E4.
  repeat split; auto. apply trace_nil.
Qed.

Lemma steady_emit (p : state -> prim) : steady sc now (emit p).
Proof.
  intros s H. unfold emit. cbn [fst snd]. repeat split; try apply H.
  apply trace_content; [reflexivity | reflexivity | apply trace_nil].
Qed.

Lemma steady_seq (f g : op) :
  steady sc now f -> steady sc now g -> steady sc now (seq f g).
Proof.
  intros Hf Hg s H. unfold seq. cbn [fst snd].
  destruct (Hf s H) as (G1 & A1 & T1).
  destruct (Hg (fst (f s)) G1) as (G2 & A2 & T2).
  repeat split; try apply G2.
  - congruence.
  - eapply trace_app; eauto.
Qed.

Lemma steady_reading (k : state -> op) :
  (forall s0, steady sc now (k s0)) -> steady sc now (reading k).
Proof. intros H s. unfold reading. apply H. Qed.

Lemma steady_add_page : steady sc now (add_page (hooks (pdf_of sc now))).
Proof.
  intros s H. rewrite (add_page_eq sc now s (good_trigger s H)).
  destruct H as (Hb & Hf & Hp). cbn [fst snd].
  assert (E : (0 <? page s)%nat = true) by (apply Nat.ltb_lt; lia).
  rewrite E. unfold good, paged. cbn [b_margin in_footer page
                                       str_alias_nb_pages].
  rewrite E. repeat split; auto.
  rewrite <- (app_nil_r (header_drawn sc (S (page s)))).
  apply trace_turn, trace_nil.
Qed.

Lemma steady_cell w h txt al nx ny (fill : bool) :
  steady sc now (cell (hooks (pdf_of sc now)) w h txt al nx ny fill).
Proof.
  intros s H. destruct (will_page_break h s) eqn:Hw.
  - rewrite (cell_break sc now _ _ _ _ _ _ _ _ Hw (good_trigger s H)).
    destruct H as (Hb & Hf & Hp). cbn [fst snd].
    assert (E : (0 <? page s)%nat = true) by (apply Nat.ltb_lt; lia).
    rewrite E.
    assert (G : good (place nx ny (cur_x s) (cell_width w (cur_x s)) h
                            (with_x (cur_x s) (paged s)))).
    { unfold good, paged. rewrite E.
      destruct nx, ny; cbn; repeat split; auto. }
    split; [exact G|]. split; [destruct nx, ny; reflexivity|].
    replace (page (place nx ny (cur_x s) (cell_width w (cur_x s)) h
                         (with_x (cur_x s) (paged s))))
      with (S (page s)) by (destruct nx, ny; reflexivity).
    rewrite <- app_assoc. apply trace_turn.
    apply trace_content; [reflexivity | reflexivity | apply trace_nil].
  - rewrite (cell_no_break _ _ _ _ _ _ _ _ _ Hw). cbn [fst snd].
    destruct H as (Hb & Hf & Hp).
    split; [unfold good; destruct nx, ny; cbn; auto|].
    split; [destruct nx, ny; reflexivity|].
    replace (page (place nx ny (cur_x s) (cell_width w (cur_x s)) h s))
      with (page s) by (destruct nx, ny; reflexivity).
    apply trace_content; [reflexivity | reflexivity | apply trace_nil].
Qed.

Lemma steady_multi_cell_lines w h (fill : bool) lines :
  steady sc now (multi_cell_lines (hooks (pdf_of sc now)) w h fill lines).
Proof.
  induction lines as [|l rest IH]; [apply steady_nop|].
  destruct rest as [|l2 rest'].
  - apply steady_cell.
  - change (multi_cell_lines (hooks (pdf_of sc now)) w h fill
                             (l :: l2 :: rest'))
      with (seq (cell (hooks (pdf_of sc now)) w h [Lit l] AlignJ LEFT NEXT
                      fill)
                (multi_cell_lines (hooks (pdf_of sc now)) w h fill
                                  (l2 :: rest'))).
    apply steady_seq; [apply steady_cell | exact IH].
Qed.

Lemma steady_multi_cell w h txt (fill : bool) :
  steady sc now (multi_cell (hooks (pdf_of sc now)) w h txt fill).
Proof.
  unfold multi_cell. apply steady_reading. intro s0.
  apply steady_multi_cell_lines.
Qed.

(** A run that opens its first page and goes on steadily: the header of
    page 1, then a trace from page 1 on. *)
Lemma first_page_shape (R : op) (s : state) :
  steady sc now R ->
  b_margin s = 20 -> in_footer s = false -> page s = 0%nat ->
  let r := seq (add_page (hooks (pdf_of sc now))) R s in
  exists o,
    snd r = (header_drawn sc 1 ++ o)%list
    /\ trace sc now 1 o (page (fst r))
    /\ good (fst r)
    /\ str_alias_nb_pages (fst r) = str_alias_nb_pages s.
Proof.
  intros HR Hb Hf Hp.
  assert (Ht : 5 + 8 <= page_break_trigger s).
  { unfold page_break_trigger. rewrite Hb. vm_compute. discriminate. }
  pose proof (add_page_eq sc now s Ht) as Ha. rewrite Hp in Ha.
  cbn [Nat.ltb Nat.leb app] in Ha.
  assert (G : good (paged s)).
  { unfold good, paged. rewrite Hp. cbn. auto. }
  destruct (HR (paged s) G) as (G1 & A1 & T1).
  replace (page (paged s)) with 1%nat in T1
    by (unfold paged; cbn [page]; now rewrite Hp).
  cbv zeta. unfold seq. rewrite Ha. cbn [fst snd].
  exists (snd (R (paged s))).
  split; [reflexivity|]. split; [exact T1|]. split; [exact G1|].
  exact A1.
Qed.

End Shape.

(** The calls of a method body, one after the other. *)
Ltac steady_calls :=
  open_setters; cbv beta iota;
  repeat lazymatch goal with
    | |- steady _ _ (seq _ _) => apply steady_seq
    | |- steady _ _ (reading _) => apply steady_reading; intro
    | |- steady _ _ nop => apply steady_nop
    | |- steady _ _ (emit _) => apply steady_emit
    | |- steady _ _ (cell _ _ _ _ _ _ _ _) => apply steady_cell
    | |- steady _ _ (multi_cell _ _ _ _ _) => apply steady_multi_cell
    | |- steady _ _ (add_page _) => apply steady_add_page
    | |- steady _ _ (upd _) =>
        apply steady_upd; intro; repeat split; reflexivity
    | |- steady _ _ (set_y _) => unfold set_y
    | |- steady _ _ (set_x _) => unfold set_x
    end.

Section ShapeOfScripts.

Variable sc : script.
Variable now : nat -> nat.

Lemma steady_run (c : call) : steady sc now (run (pdf_of sc now) c).
Proof.
  destruct c; destruct sc;
    cbn [run pdf_of hooks dark_bg section_title sub_title body_text bullet
         code_block status_badge Active.FeaturePDF Feed.FeaturePDF];
    unfold Active.dark_bg, Feed.dark_bg, Active.section_title,
      Feed.section_title, Active.sub_title, Feed.sub_title,
      Active.body_text, Feed.body_text, Active.bullet, Feed.bullet,
      Active.code_block, Feed.code_block, Active.status_badge,
      Feed.status_badge;
    repeat match goal with
           | |- context [String.eqb ?u ?v] => destruct (String.eqb u v)
           end;
    steady_calls.
Qed.

Lemma steady_run_all (cs : list call) :
  steady sc now (run_all (pdf_of sc now) cs).
Proof.
  induction cs as [|c rest IH]; cbn [run_all].
  - apply steady_nop.
  - apply steady_seq; [apply steady_run | exact IH].
Qed.

Lemma steady_toc_rows (items : list string) :
  steady sc now (match sc with
                 | ActiveMode => Active.toc_rows now items
                 | FeedFeature => Feed.toc_rows now items
                 end).
Proof.
  induction items as [|item rest IH]; destruct sc;
    cbn [Active.toc_rows Feed.toc_rows];
    try apply steady_nop;
    fold (Active.toc_rows now) in *; fold (Feed.toc_rows now) in *;
    steady_calls; exact IH.
Qed.

Lemma steady_checklist_rows (rows : list (string * bool)) :
  steady sc now (checklist_rows_of sc now rows).
Proof.
  induction rows as [|[label done] rest IH]; destruct sc;
    cbn [checklist_rows_of Active.checklist_rows Feed.checklist_rows] in *;
    try apply steady_nop;
    fold (Active.checklist_rows now) in *;
    fold (Feed.checklist_rows now) in *;
    destruct done; steady_calls; exact IH.
Qed.

Lemma steady_table_of_contents :
  steady sc now (table_of_contents_of sc now).
Proof.
  pose proof (steady_toc_rows (match sc with
                               | ActiveMode => Active.toc
                               | FeedFeature => Feed.toc
                               end)) as Hrows.
  destruct sc; cbn [table_of_contents_of];
    unfold Active.table_of_contents, Feed.table_of_contents,
      Active.dark_bg, Feed.dark_bg, Active.section_title,
      Feed.section_title;
    steady_calls; exact Hrows.
Qed.

Lemma steady_checklist_section :
  steady sc now (match sc with
                 | ActiveMode => Active.checklist_section now
                 | FeedFeature => Feed.checklist_section now
                 end).
Proof.
  pose proof (steady_checklist_rows (checklist_of sc)) as Hrows.
  destruct sc; cbn [checklist_rows_of checklist_of] in Hrows;
    unfold Active.checklist_section, Feed.checklist_section,
      Active.dark_bg, Feed.dark_bg, Active.section_title,
      Feed.section_title, Active.body_text, Feed.body_text;
    steady_calls; exact Hrows.
Qed.

Lemma cover_shape (s : state) :
  b_margin s = 20 -> in_footer s = false -> page s = 0%nat ->
  exists o,
    snd (cover_page_of sc now s) = (header_drawn sc 1 ++ o)%list
    /\ trace sc now 1 o (page (fst (cover_page_of sc now s)))
    /\ good (fst (cover_page_of sc now s))
    /\ str_alias_nb_pages (fst (cover_page_of sc now s))
       = str_alias_nb_pages s.
Proof.
  intros Hb Hf Hp.
  destruct sc; cbn [cover_page_of];
    unfold Active.cover_page, Feed.cover_page;
    [ apply (first_page_shape ActiveMode now)
    | apply (first_page_shape FeedFeature now) ];
    try assumption;
    unfold Active.dark_bg, Feed.dark_bg; steady_calls.
Qed.

End ShapeOfScripts.

(** * Paragraphs across page breaks *)

Section Paragraphs.

(** Where a cell lands: one content primitive at the cursor column, on
    the page and at the height the cursor has once any page break is
    done, with the cursor left on that page. *)
Lemma cell_landing cls w h txt al nx ny (fill : bool) s :
  exists pg cy,
    filter is_content (snd (cell cls w h txt al nx ny fill s))
    = [mkEvent pg Content
         (Cell (cur_x s) cy (cell_width w (cur_x s)) h txt
               (font (gfx s)) (text_color (gfx s)) al
               (if fill then Some (fill_color (gfx s)) else None))]
    /\ page (fst (cell cls w h txt al nx ny fill s)) = pg
    /\ cur_y (fst (cell cls w h txt al nx ny fill s))
       = match ny with TOP => cy | NEXT => cy + h end
    /\ gfx (fst (cell cls w h txt al nx ny fill s)) = gfx s.
Proof.
  unfold cell, reading. fold (cell_width w (cur_x s)).
  destruct (will_page_break h s).
  - exists (page (fst (add_page cls s))), (cur_y (fst (add_page cls s))).
    unfold perform_page_break, reading, seq, upd, emit.
    cbn [fst snd]. rewrite !filter_app, add_page_no_content.
    split; [reflexivity|]. destruct nx, ny; repeat split; reflexivity.
  - exists (page s), (cur_y s). unfold seq, nop, upd, emit. cbn [fst snd].
    split; [reflexivity|]. destruct nx, ny; repeat split; reflexivity.
Qed.

Lemma multi_cell_lines_looks cls w h (fill : bool) lines :
  forall s,
    map row_look
        (filter is_content (snd (multi_cell_lines cls w h fill lines s)))
    = map (fun l => Some (cur_x s, cell_width w (cur_x s), [Lit l],
                          font (gfx s), text_color (gfx s),
                          if fill then Some (fill_color (gfx s)) else None))
          lines
    /\ gfx (fst (multi_cell_lines cls w h fill lines s)) = gfx s.
Proof.
  induction lines as [|l rest IH]; intro s; [split; reflexivity|].
  destruct rest as [|l2 rest'].
  - cbn [multi_cell_lines].
    destruct (cell_content cls w h [Lit l] AlignJ RIGHT NEXT fill s)
      as (pg & cy & E & G).
    rewrite E. split; [reflexivity | exact G].
  - change (multi_cell_lines cls w h fill (l :: l2 :: rest'))
      with (seq (cell cls w h [Lit l] AlignJ LEFT NEXT fill)
                (multi_cell_lines cls w h fill (l2 :: rest'))).
    unfold seq. cbn [fst snd].
    destruct (cell_content cls w h [Lit l] AlignJ LEFT NEXT fill s)
      as (pg & cy & E & G).
    pose proof (cell_column_after cls w h [Lit l] AlignJ LEFT NEXT fill s)
      as X.
    destruct (IH (fst (cell cls w h [Lit l] AlignJ LEFT NEXT fill s)))
      as (IH1 & IH2).
    rewrite filter_app, map_app, E, IH1, IH2, G, X.
    split; reflexivity.
Qed.

Lemma multi_cell_looks cls w h txt (fill : bool) s :
  map row_look (filter is_content (snd (multi_cell cls w h txt fill s)))
  = map (fun l => Some (cur_x s, cell_width w (cur_x s), [Lit l],
                        font (gfx s), text_color (gfx s),
                        if fill then Some (fill_color (gfx s)) else None))
        (break_lines (cell_width w (cur_x s)) txt s).
Proof.
  unfold multi_cell, reading. fold (cell_width w (cur_x s)).
  destruct (multi_cell_lines_looks cls (cell_width w (cur_x s)) h fill
              (break_lines (cell_width w (cur_x s)) txt s) s) as (E & _).
  rewrite E. apply map_ext. intro l. now rewrite cell_width_idem.
Qed.

(** X1.  Every line of a paragraph or of a code block is drawn, once and
    in order, in the column and width the block started with and in the
    font and colours of the helper, wherever page breaks fall between
    its rows: a paragraph keeps the cursor column and reaches the right
    margin, a code block is at column 15 and 180 mm wide, and the style
    set by the header and footer of a page turned in the middle never
    reaches the rows that follow. *)
Theorem rows_complete_across_page_breaks
        (sc : script) (now : nat -> nat) (txt : string) (s : state) :
  map row_look
      (filter is_content (snd (body_text (pdf_of sc now) txt s)))
  = map (fun l => Some (cur_x s, page_w - r_margin - cur_x s, [Lit l],
                        helvetica10, Active.TEXT_SECONDARY, None))
        (body_lines s txt)
  /\ map row_look
         (filter is_content (snd (code_block (pdf_of sc now) txt s)))
     = map (fun l => Some (15, 180, [Lit l], courier, Active.CODE_TEXT,
                           Some Active.BG_CODE))
           (code_lines s txt).
Proof.
  split.
  - destruct sc; cbn [pdf_of body_text Active.FeaturePDF Feed.FeaturePDF];
      unfold Active.body_text, Feed.body_text; open_setters;
      unfold seq, upd; cbn [fst snd app]; rewrite app_nil_r;
      rewrite multi_cell_looks;
      destruct s as [p x y g f a bm al cr m]; reflexivity.
  - destruct sc; cbn [pdf_of code_block Active.FeaturePDF Feed.FeaturePDF];
      unfold Active.code_block, Feed.code_block; open_setters;
      unfold reading, seq, upd; cbn [fst snd app]; rewrite app_nil_r;
      rewrite multi_cell_looks;
      destruct s as [p x y g f a bm al cr m]; reflexivity.
Qed.

End Paragraphs.

(** * Headings and badges *)

Section Headings.

Lemma after_cell_lands (P : state -> list event -> Prop)
      cls w h txt al nx ny (fill : bool) s :
  (forall s1 o1 pg cy,
      filter is_content o1
      = [mkEvent pg Content
           (Cell (cur_x s) cy (cell_width w (cur_x s)) h txt
                 (font (gfx s)) (text_color (gfx s)) al
                 (if fill then Some (fill_color (gfx s)) else None))] ->
      page s1 = pg ->
      cur_y s1 = match ny with TOP => cy | NEXT => cy + h end ->
      gfx s1 = gfx s ->
      P s1 o1) ->
  after (cell cls w h txt al nx ny fill) P s.
Proof.
  intro H. unfold after.
  destruct (cell_landing cls w h txt al nx ny fill s)
    as (pg & cy & E & Hp & Hy & Hg).
  eapply H; eassumption.
Qed.

(** X2.  The rule of a section title always follows its title: whatever
    the state, and also when the title is carried to the next page, the
    two content primitives of [section_title] are the title cell and,
    on the same page and 10 mm below the top of that cell, the accent
    rule from 10 mm to 85 mm. *)
Theorem section_title_rule_follows_title
        (sc : script) (now : nat -> nat) (title : string) (s : state) :
  exists pg cy,
    filter is_content (snd (section_title (pdf_of sc now) title s))
    = [ mkEvent pg Content
          (Cell l_margin cy (page_w - r_margin - l_margin) 10 [Lit title]
                (mkFont Helvetica StyleB 14) Active.TEXT_PRIMARY AlignL None);
        mkEvent pg Content
          (Line 10 (cy + 10) 85 (cy + 10) Active.ACCENT 0.4) ].
Proof.
  match goal with
  | |- exists pg cy, filter _ (snd _) = @?rhs pg cy =>
      change (after (section_title (pdf_of sc now) title)
                (fun _ o => exists pg cy, filter is_content o = rhs pg cy) s)
  end.
  destruct sc; cbn [pdf_of section_title Active.FeaturePDF Feed.FeaturePDF];
    unfold Active.section_title, Feed.section_title; open_setters;
    destruct s as [p x y g f a bm al cr m]; flat;
    (repeat step;
     apply after_cell_lands; intros s1 o1 pg cy E Hp Hy Hg; flat;
     repeat step; exists pg, cy;
     rewrite !filter_app, E; cbn [filter app is_content ev_origin];
     rewrite Hp, Hy; reflexivity).
Qed.

(** X3.  The two named statuses.  "complete" draws the label with
    "[COMPLETE]" in the success colour and "in-progress" draws it with
    "[IN PROGRESS]" in the amber (255, 183, 77), each as the one content
    cell of the call, 6 mm high, in Helvetica bold 9. *)
Theorem status_badge_named_statuses
        (sc : script) (now : nat -> nat) (label : string) (s : state) :
  (exists pg cx cy cw,
      filter is_content
        (snd (status_badge (pdf_of sc now) label "complete" s))
      = [mkEvent pg Content
           (Cell cx cy cw 6 [Lit ("  " ++ label ++ "  " ++ "[COMPLETE]")]
                 (mkFont Helvetica StyleB 9) Active.SUCCESS AlignL None)])
  /\ (exists pg cx cy cw,
         filter is_content
           (snd (status_badge (pdf_of sc now) label "in-progress" s))
         = [mkEvent pg Content
              (Cell cx cy cw 6
                    [Lit ("  " ++ label ++ "  " ++ "[IN PROGRESS]")]
                    (mkFont Helvetica StyleB 9) (255, 183, 77)%nat AlignL
                    None)]).
Proof.
  split;
    destruct sc; cbn [pdf_of status_badge Active.FeaturePDF Feed.FeaturePDF];
    unfold Active.status_badge, Feed.status_badge;
    cbn [String.eqb Ascii.eqb Bool.eqb]; cbv beta iota;
    open_setters; unfold seq at 1 2 3; unfold upd; cbn [fst snd app];
    rewrite app_nil_r;
    match goal with
    | |- context [cell ?c ?w ?h ?t ?a ?nx ?ny ?f ?st] =>
        destruct (cell_content c w h t a nx ny f st) as (pg & cy & He & _);
        exists pg, (cur_x st), cy, (cell_width w (cur_x st));
        rewrite He; reflexivity
    end.
Qed.

End Headings.

(** * Page turns of a run *)

Section PageTurns.

Variable sc : script.
Variable now : nat -> nat.

Lemma trace_range p o q :
  trace sc now p o q ->
  (p <= q)%nat /\ Forall (fun e => (p <= ev_page e <= q)%nat) o.
Proof.
  induction 1 as [p | p e o q Ho Hp _ [IH1 IH2] | p r o q _ [IH1 IH2]].
  - split; [lia | constructor].
  - split; [exact IH1|]. constructor; [lia | exact IH2].
  - split; [lia|].
    assert (W : Forall (fun e => (S p <= ev_page e <= q)%nat -> 
                                 (p <= ev_page e <= q)%nat) o)
      by (apply Forall_forall; intros; lia).
    repeat (constructor; [cbn [ev_page]; lia|]).
    eapply Forall_impl; [|exact IH2]. cbn beta. intros; lia.
Qed.

Lemma trace_footers p o q :
  trace sc now p o q ->
  map ev_page (filter is_footer o) = List.seq p (q - p)
  /\ Forall (footer_of_own_page now) (filter is_footer o).
Proof.
  induction 1 as [p | p e o q Ho Hp Ht [IH1 IH2] | p r o q Ht [IH1 IH2]].
  - rewrite Nat.sub_diag. split; [reflexivity | constructor].
  - assert (E : is_footer e = false) by (unfold is_footer; now rewrite Ho).
    cbn [filter]. rewrite E. split; assumption.
  - pose proof (proj1 (trace_range _ _ _ Ht)) as Hle.
    cbn [footer_drawn header_drawn app filter is_footer ev_origin map
         ev_page].
    replace (q - p)%nat with (S (q - S p)) by lia. cbn [List.seq].
    split; [now rewrite IH1|].
    constructor; [|exact IH2]. exists r. reflexivity.
Qed.

Lemma trace_headers p o q :
  trace sc now p o q ->
  filter is_header o = flat_map (header_drawn sc) (List.seq (S p) (q - p)).
Proof.
  induction 1 as [p | p e o q Ho Hp Ht IH | p r o q Ht IH].
  - rewrite Nat.sub_diag. reflexivity.
  - assert (E : is_header e = false) by (unfold is_header; now rewrite Ho).
    cbn [filter]. rewrite E. exact IH.
  - pose proof (proj1 (trace_range _ _ _ Ht)) as Hle.
    cbn [footer_drawn header_drawn app filter is_header ev_origin].
    replace (q - p)%nat with (S (q - S p)) by lia.
    cbn [List.seq flat_map header_drawn app]. now rewrite IH.
Qed.

(** X4.  Any sequence of the calls [build_pdf] makes, run on an object
    whose first page is open, draws content on the current page and, at
    each page turn, the footer of the page left followed by the header
    of the next; the object stays as [build_pdf] set it up (margin 20,
    not in the footer) and its alias is untouched. *)
Theorem run_all_draws_a_trace (cs : list call) (s : state) :
  good s ->
  good (fst (run_all (pdf_of sc now) cs s))
  /\ str_alias_nb_pages (fst (run_all (pdf_of sc now) cs s))
     = str_alias_nb_pages s
  /\ trace sc now (page s) (snd (run_all (pdf_of sc now) cs s))
           (page (fst (run_all (pdf_of sc now) cs s))).
Proof. intro H. exact (steady_run_all sc now cs s H). Qed.

(** X5.  Page numbers in a run.  The page number never goes down, every
    primitive is on a page between the first and the last of the run,
    the pages left get one footer each, in page order and each printing
    the number of its own page, and the pages entered get one header
    each, in page order. *)
Theorem run_all_numbers_pages (cs : list call) (s : state) :
  good s ->
  let r := run_all (pdf_of sc now) cs s in
  (page s <= page (fst r))%nat
  /\ Forall (fun e => (page s <= ev_page e <= page (fst r))%nat) (snd r)
  /\ map ev_page (filter is_footer (snd r))
     = List.seq (page s) (page (fst r) - page s)
  /\ Forall (footer_of_own_page now) (filter is_footer (snd r))
  /\ filter is_header (snd r)
     = flat_map (header_drawn sc) (List.seq (S (page s)) (page (fst r) - page s)).
Proof.
  intros H r. destruct (steady_run_all sc now cs s H) as (_ & _ & T).
  fold r in T.
  destruct (trace_range _ _ _ T) as (R1 & R2).
  destruct (trace_footers _ _ _ T) as (F1 & F2).
  pose proof (trace_headers _ _ _ T) as Hh.
  repeat split; assumption.
Qed.

End PageTurns.

Section PageTurnsWitnesses.

Lemma top_of_page_good : good top_of_page.
Proof. vm_compute. repeat split. constructor. Qed.

Lemma run_all_draws_a_trace_witness :
  good (fst (run_all (pdf_of ActiveMode now0) sample_calls top_of_page))
  /\ str_alias_nb_pages
       (fst (run_all (pdf_of ActiveMode now0) sample_calls top_of_page))
     = str_alias_nb_pages top_of_page
  /\ trace ActiveMode now0 (page top_of_page)
           (snd (run_all (pdf_of ActiveMode now0) sample_calls top_of_page))
           (page (fst (run_all (pdf_of ActiveMode now0) sample_calls
                               top_of_page))).
Proof.
  exact (run_all_draws_a_trace ActiveMode now0 sample_calls top_of_page
           top_of_page_good).
Defined.

Lemma run_all_numbers_pages_witness :
  (page top_of_page
   <= page (fst (run_all (pdf_of FeedFeature now0) feed_feature_overview
                         top_of_page)))%nat.
Proof.
  exact (proj1 (run_all_numbers_pages FeedFeature now0 feed_feature_overview
                  top_of_page top_of_page_good)).
Defined.

End PageTurnsWitnesses.

(** * The finished document *)

Section Document.

Lemma output_eq (sc : script) (now : nat -> nat) (s : state)
      (drawn : list event) (alias : string) :
  good s ->
  str_alias_nb_pages s = Some alias ->
  output (hooks (pdf_of sc now)) s drawn
  = map (resolve_event alias (str (page s)))
        (drawn ++ footer_drawn now (page s) (clock_reads s))%list.
Proof.
  intros (Hb & Hf & Hp) Ha. unfold output, close.
  assert (E : (page s =? 0)%nat = false) by (apply Nat.eqb_neq; lia).
  unfold seq, reading. cbv beta zeta. rewrite E.
  unfold nop, upd. cbn [fst snd app].
  erewrite tagged_eq by (apply footer_run; reflexivity).
  cbn [fst snd]. unfold with_in_footer. cbn [str_alias_nb_pages page].
  rewrite Ha, app_nil_r. reflexivity.
Qed.

Lemma seq_upd_run (u : state -> state) (f : op) (s : state) :
  seq (upd u) f s = f (u s).
Proof. unfold seq, upd. cbn [fst snd app]. now destruct (f (u s)). Qed.

(** A program that opens page 1 and then runs steadily, written out. *)
Lemma document_shape (sc : script) (now : nat -> nat)
      (C T : op) (s : state) (alias : string) :
  str_alias_nb_pages s = Some alias ->
  (exists o,
      snd (C s) = (header_drawn sc 1 ++ o)%list
      /\ trace sc now 1 o (page (fst (C s)))
      /\ good (fst (C s))
      /\ str_alias_nb_pages (fst (C s)) = str_alias_nb_pages s) ->
  steady sc now T ->
  exists o N r,
    (1 <= N)%nat
    /\ trace sc now 1 o N
    /\ output (hooks (pdf_of sc now)) (fst (seq C T s)) (snd (seq C T s))
       = map (resolve_event alias (str N))
             (header_drawn sc 1 ++ o ++ footer_drawn now N r)%list.
Proof.
  intros Ha (o1 & E1 & T1 & G1 & A1) HT.
  destruct (HT (fst (C s)) G1) as (G2 & A2 & T2).
  exists (o1 ++ snd (T (fst (C s))))%list,
         (page (fst (T (fst (C s))))),
         (clock_reads (fst (T (fst (C s))))).
  split; [apply G2|]. split; [eapply trace_app; eassumption|].
  unfold seq. cbn [fst snd].
  rewrite (output_eq sc now _ _ alias G2) by congruence.
  rewrite E1, <- !app_assoc. reflexivity.
Qed.

(** X6.  Shape of the document [build_pdf] writes, whatever the numbered
    sections and however the fonts break text.  With N its number of
    pages (at least 1), the document is the header of page 1, then a
    trace from page 1 to page N, then the footer of page N, with every
    occurrence of the alias "{nb}" in the texts drawn replaced by N. *)
Theorem build_pdf_document_shape
        (sc : script) (now : nat -> nat)
        (m : font_spec -> Q -> string -> list string)
        (sections : list call) :
  exists o N r,
    (1 <= N)%nat
    /\ trace sc now 1 o N
    /\ build_pdf_of sc now m sections
       = map (resolve_event "{nb}" (str N))
             (header_drawn sc 1 ++ o ++ footer_drawn now N r)%list.
Proof.
  pose proof (steady_table_of_contents sc now) as Htoc.
  pose proof (steady_run_all sc now sections) as Hrun.
  pose proof (steady_checklist_section sc now) as Hcl.
  pose proof (cover_shape sc now
                (with_auto true 20
                   (with_alias (Some "{nb}") (new_fpdf m)))
                eq_refl eq_refl eq_refl) as Hcov.
  destruct sc; cbn [build_pdf_of table_of_contents_of cover_page_of] in *;
    unfold Active.build_pdf, Feed.build_pdf; cbv zeta;
    unfold alias_nb_pages, set_auto_page_break;
    rewrite !seq_upd_run.
  - apply (document_shape ActiveMode now (Active.cover_page now));
      [ reflexivity | exact Hcov | ].
    apply steady_seq; [exact Htoc|].
    apply steady_seq; [exact Hrun | exact Hcl].
  - apply (document_shape FeedFeature now (Feed.cover_page now));
      [ reflexivity | exact Hcov | ].
    apply steady_seq; [exact Htoc|].
    apply steady_seq; [exact Hrun | exact Hcl].
Qed.

End Document.

(** * Bands and background *)

Section Bands.

Lemma will_page_break_false_fits (h : Q) (s : state) :
  will_page_break h s = false ->
  auto_page_break s = true -> in_footer s = false ->
  cur_y s + h <= page_break_trigger s.
Proof.
  unfold will_page_break, Qlt_bool. intros H Ha Hf.
  rewrite Ha, Hf in H. cbn [negb andb] in H.
  rewrite andb_true_r, andb_true_r in H.
  apply negb_false_iff in H. now apply Qle_bool_iff in H.
Qed.

(** X7.  A row that is not carried to the next page stays clear of the
    footer.  With the bottom margin 20 of [build_pdf] and page breaking
    on, a cell of height [h] that passes the page break test ends above
    the top of the footer cell, which itself ends on the page. *)
Theorem fitted_row_clear_of_footer
        (sc : script) (now : nat -> nat) (s s' : state) (h : Q) :
  good s -> auto_page_break s = true ->
  will_page_break h s = false ->
  in_footer s' = true ->
  Forall (fun e => exists fy, cell_y e = Some fy
                              /\ cur_y s + h < fy /\ fy + 10 <= page_h)
         (snd (footer (hooks (pdf_of sc now)) s')).
Proof.
  intros (Hb & Hf & Hp) Ha Hw Hs'.
  rewrite (footer_run sc now s' Hs'). cbn [snd footer_drawn map ev_prim].
  constructor; [|constructor].
  exists (page_h + -15). cbn [cell_y ev_prim]. split; [reflexivity|].
  pose proof (will_page_break_false_fits h s Hw Ha Hf) as Hfit.
  unfold page_break_trigger in Hfit. rewrite Hb in Hfit.
  split; lra.
Qed.

(** X8.  On a page opened the way [build_pdf] opens every section,
    [add_page] then [dark_bg], the full-page fill is drawn after the
    header of the page and contains each of the header's primitives:
    the band, the title cell and the rule. *)
Theorem explicit_page_fill_over_header
        (sc : script) (now : nat -> nat) (s : state) :
  good s ->
  snd (seq (add_page (hooks (pdf_of sc now))) (dark_bg (pdf_of sc now)) s)
  = (footer_drawn now (page s) (clock_reads s)
     ++ header_drawn sc (S (page s))
     ++ [mkEvent (S (page s)) Content
           (Rect 0 0 210 297 Active.BG_PRIMARY)])%list
  /\ Forall (fun e => inside_background (ev_prim e) = true)
            (header_drawn sc (S (page s))).
Proof.
  intro H. split.
  - unfold seq. rewrite (add_page_eq sc now s (good_trigger s H)).
    destruct H as (_ & _ & Hp).
    assert (E : (0 <? page s)%nat = true) by (apply Nat.ltb_lt; lia).
    rewrite E. cbn [fst snd]. rewrite <- app_assoc.
    destruct sc; reflexivity.
  - destruct sc; repeat constructor.
Qed.

End Bands.

Section BandsWitnesses.

Lemma fitted_row_clear_of_footer_witness :
  Forall (fun e => exists fy, cell_y e = Some fy
                              /\ cur_y top_of_page + 6 < fy
                              /\ fy + 10 <= page_h)
         (snd (footer (hooks (pdf_of ActiveMode now0))
                      (with_in_footer true top_of_page))).
Proof.
  apply (fitted_row_clear_of_footer ActiveMode now0 top_of_page
           (with_in_footer true top_of_page) 6).
  - exact top_of_page_good.
  - reflexivity.
  - vm_compute. reflexivity.
  - reflexivity.
Defined.

Lemma explicit_page_fill_over_header_witness :
  Forall (fun e => inside_background (ev_prim e) = true)
         (header_drawn FeedFeature (S (page top_of_page))).
Proof.
  exact (proj2 (explicit_page_fill_over_header FeedFeature now0 top_of_page
                  top_of_page_good)).
Defined.

End BandsWitnesses.

(** * The table of contents *)

Section TableOfContents.

Lemma after_cell_break (P : state -> list event -> Prop)
      (sc : script) (now : nat -> nat) w h txt al nx ny (fill : bool) s :
  will_page_break h s = true ->
  5 + 8 <= page_break_trigger s ->
  P (place nx ny (cur_x s) (cell_width w (cur_x s)) h
           (with_x (cur_x s) (paged s)))
    (((if (0 <? page s)%nat
       then footer_drawn now (page s) (clock_reads s) else [])
      ++ header_drawn sc (S (page s)))
     ++ [mkEvent (S (page s)) Content
           (Cell (cur_x s) content_top (cell_width w (cur_x s)) h txt
                 (font (gfx s)) (text_color (gfx s)) al
                 (if fill then Some (fill_color (gfx s)) else None))])%list ->
  after (cell (hooks (pdf_of sc now)) w h txt al nx ny fill) P s.
Proof.
  intros Hb Ht HP. unfold after.
  rewrite (cell_break sc now _ _ _ _ _ _ _ _ Hb Ht). exact HP.
Qed.

(** X9.  Rows of the table of contents that fit.  When all the entries
    fit above the page break trigger, each is drawn as a rule from x=15
    to x=195, 6 mm below the top of the row, followed by the entry cell
    9 mm high with the entry indented by two spaces; the rows follow one
    another on the same page and the cursor ends 9 mm per entry lower. *)
Theorem toc_rows_that_fit
        (sc : script) (now : nat -> nat) (items : list string) :
  forall s,
    cur_y s + Qnat (length items) * 9 <= page_break_trigger s ->
    snd (toc_rows_of sc now items s)
    = toc_drawn (page s) (cur_x s) (cur_y s) (line_width (gfx s)) items
    /\ cur_y (fst (toc_rows_of sc now items s))
       == cur_y s + Qnat (length items) * 9
    /\ page (fst (toc_rows_of sc now items s)) = page s.
Proof.
  induction items as [|item rest IH]; intros s Hfit.
  - destruct sc; cbn [toc_rows_of Active.toc_rows Feed.toc_rows nop fst snd
                      toc_drawn length];
      (split; [reflexivity|]; split; [|reflexivity]);
      change (Qnat 0) with 0; lra.
  - cbn [length] in Hfit. rewrite Qnat_S in Hfit.
    pose proof (Qnat_nonneg (length rest)) as Hn.
    change (after (toc_rows_of sc now (item :: rest))
              (fun s1 o =>
                 o = toc_drawn (page s) (cur_x s) (cur_y s)
                               (line_width (gfx s)) (item :: rest)
                 /\ cur_y s1 == cur_y s + Qnat (length (item :: rest)) * 9
                 /\ page s1 = page s) s).
    cbn [toc_drawn].
    destruct sc; cbn [toc_rows_of Active.toc_rows Feed.toc_rows] in *;
      fold (Active.toc_rows now) in *; fold (Feed.toc_rows now) in *;
      open_setters; destruct s as [p x y g f a bm al cr m]; flat;
      repeat step;
      match goal with
      | |- after ?F _ ?st =>
          unfold after;
          destruct (IH st) as (E1 & E2 & E3);
          [ flat; lra | ];
          rewrite E1; flat; split; [reflexivity|];
          split; [rewrite E2; cbn [length]; rewrite (Qnat_S (length rest));
                  flat; lra
                 | exact E3]
      end.
Qed.

(** X10.  A row of the table of contents that does not fit leaves its rule
    behind.  The rule is drawn before the entry cell is placed: when the
    entry is carried to the next page, its rule stays on the page being
    left, 6 mm below the old cursor, and the entry opens the next page. *)
Theorem toc_rule_left_behind
        (sc : script) (now : nat -> nat) (item : string)
        (rest : list string) (s : state) :
  good s -> auto_page_break s = true ->
  page_break_trigger s < cur_y s + 9 ->
  exists tail,
    filter is_content (snd (toc_rows_of sc now (item :: rest) s))
    = toc_rule (page s) (cur_y s) (line_width (gfx s))
      :: toc_entry (S (page s)) (cur_x s) content_top item
      :: tail.
Proof.
  intros G Ha Hover.
  pose proof (good_trigger s G) as Ht. destruct G as (Hb & Hf & Hp).
  match goal with
  | |- exists tail, filter _ (snd _) = @?rhs tail =>
      change (after (toc_rows_of sc now (item :: rest))
                (fun _ o => exists tail, filter is_content o = rhs tail) s)
  end.
  destruct sc; cbn [toc_rows_of Active.toc_rows Feed.toc_rows];
    fold (Active.toc_rows now); fold (Feed.toc_rows now);
    open_setters; destruct s as [p x y g f a bm al cr m]; flat;
    subst f a; repeat step;
    lazymatch goal with
    | |- after (cell (Active.cls _) _ _ _ _ _ _ _) _ _ =>
        apply (after_cell_break _ ActiveMode now)
    | |- after (cell (Feed.cls _) _ _ _ _ _ _ _) _ _ =>
        apply (after_cell_break _ FeedFeature now)
    end;
    try (apply will_page_break_over; flat; [exact Hover | reflexivity
                                            | reflexivity]);
    try exact Ht;
    flat; unfold after;
    eexists;
    cbn [filter is_content ev_origin];
    rewrite !filter_app, footer_no_content, header_no_content;
    cbn [filter app is_content ev_origin]; reflexivity.
Qed.

End TableOfContents.

Section TableOfContentsWitnesses.

Lemma toc_rows_that_fit_witness :
  snd (toc_rows_of ActiveMode now0 (toc_of ActiveMode) top_of_page)
  = toc_drawn (page top_of_page) (cur_x top_of_page) (cur_y top_of_page)
              (line_width (gfx top_of_page)) (toc_of ActiveMode).
Proof.
  refine (proj1 (toc_rows_that_fit ActiveMode now0 (toc_of ActiveMode)
                   top_of_page _)).
  vm_compute. discriminate.
Defined.

Lemma at_the_bottom_good : good at_the_bottom.
Proof. vm_compute. repeat split. constructor. Qed.

Lemma toc_rule_left_behind_witness :
  exists tail,
    filter is_content
      (snd (toc_rows_of FeedFeature now0 ["1.  Executive Summary"]
                        at_the_bottom))
    = toc_rule (page at_the_bottom) (cur_y at_the_bottom)
               (line_width (gfx at_the_bottom))
      :: toc_entry (S (page at_the_bottom)) (cur_x at_the_bottom)
                   content_top "1.  Executive Summary"
      :: tail.
Proof.
  apply (toc_rule_left_behind FeedFeature now0 "1.  Executive Summary" []
           at_the_bottom).
  - exact at_the_bottom_good.
  - reflexivity.
  - vm_compute. reflexivity.
Defined.

End TableOfContentsWitnesses.

(** * Columns of a bullet *)

Section BulletColumns.

Lemma after_cell_lands_x (P : state -> list event -> Prop)
      cls w h txt al nx ny (fill : bool) s :
  (forall s1 o1 pg cy,
      filter is_content o1
      = [mkEvent pg Content
           (Cell (cur_x s) cy (cell_width w (cur_x s)) h txt
                 (font (gfx s)) (text_color (gfx s)) al
                 (if fill then Some (fill_color (gfx s)) else None))] ->
      page s1 = pg ->
      cur_y s1 = match ny with TOP => cy | NEXT => cy + h end ->
      gfx s1 = gfx s ->
      cur_x s1 = match nx with
                 | RIGHT => cur_x s + cell_width w (cur_x s)
                 | LMARGIN => l_margin
                 | LEFT => cur_x s
                 end ->
      P s1 o1) ->
  after (cell cls w h txt al nx ny fill) P s.
Proof.
  intro H. unfold after.
  destruct (cell_landing cls w h txt al nx ny fill s)
    as (pg & cy & E & Hp & Hy & Hg).
  eapply H; try eassumption. apply cell_column_after.
Qed.

Lemma cell_x_of_look (l : list event) :
  map cell_x l
  = map (option_map (fun v : Q * Q * text * font_spec * color * option color
                     => fst (fst (fst (fst (fst v))))))
        (map row_look l).
Proof.
  rewrite map_map. apply map_ext. intro e.
  unfold cell_x, row_look. now destruct (ev_prim e).
Qed.

Lemma cell_w_of_look (l : list event) :
  map cell_w l
  = map (option_map (fun v : Q * Q * text * font_spec * color * option color
                     => snd (fst (fst (fst (fst v))))))
        (map row_look l).
Proof.
  rewrite map_map. apply map_ext. intro e.
  unfold cell_w, row_look. now destruct (ev_prim e).
Qed.

Lemma map_const_repeat {A B : Type} (b : B) (l : list A) :
  map (fun _ => b) l = repeat b (length l).
Proof. induction l as [|a l IH]; cbn; congruence. Qed.

Lemma after_multi_cell_any (P : state -> list event -> Prop)
      cls w h txt (fill : bool) s :
  (forall s1 o1,
      map row_look (filter is_content o1)
      = map (fun l => Some (cur_x s, cell_width w (cur_x s), [Lit l],
                            font (gfx s), text_color (gfx s),
                            if fill then Some (fill_color (gfx s))
                            else None))
            (break_lines (cell_width w (cur_x s)) txt s) ->
      P s1 o1) ->
  after (multi_cell cls w h txt fill) P s.
Proof. intro H. unfold after. apply H, multi_cell_looks. Qed.

(** X11.  Columns of a bullet, page breaks included.  In every state with
    the marker column on the page, the content cells of [bullet] are the
    marker cell, 6 mm wide at the cursor column plus the indent, and at
    least one text row; all text rows, those drawn after a page break
    too, are in the column 6 mm right of the marker and reach the right
    margin. *)
Theorem bullet_columns_across_page_breaks
        (sc : script) (now : nat -> nat) (txt : string) (indent : Q)
        (s : state) :
  0 <= cur_x s + indent ->
  exists n,
    (1 <= n)%nat
    /\ map cell_x (filter is_content (snd (bullet (pdf_of sc now) txt indent s)))
       = Some (cur_x s + indent)
         :: repeat (Some (cur_x s + indent + 6)) n
    /\ map cell_w (filter is_content (snd (bullet (pdf_of sc now) txt indent s)))
       = Some 6
         :: repeat (Some (page_w - r_margin - (cur_x s + indent + 6))) n.
Proof.
  intro Hx. apply Qle_bool_iff in Hx.
  match goal with
  | |- exists n, _ /\ map cell_x (filter _ (snd _)) = @?c n
                 /\ map cell_w _ = @?d n =>
      change (after (bullet (pdf_of sc now) txt indent)
                (fun _ o => exists n, (1 <= n)%nat
                            /\ map cell_x (filter is_content o) = c n
                            /\ map cell_w (filter is_content o) = d n) s)
  end.
  destruct sc; cbn [pdf_of bullet Active.FeaturePDF Feed.FeaturePDF];
    unfold Active.bullet, Feed.bullet; open_setters;
    destruct s as [p x y g f a bm al cr m]; flat;
    repeat step; rewrite Hx; flat;
    (apply after_cell_lands_x; intros s1 o1 pg cy E1 Hp1 Hy1 Hg1 Hx1; flat;
     do 3 step;
     apply after_multi_cell_any; intros s2 o2 V2; flat; repeat step;
     match type of V2 with
     | _ = map _ ?ls => exists (length ls); split;
         [ pose proof (break_lines_nonempty
                         (cell_width 0 (cur_x s1)) txt
                         ltac:(match ls with
                               | break_lines _ _ ?st => exact st
                               end)) as Hne;
           destruct ls; [congruence | cbn [length]; lia]
         | ]
     end;
     rewrite app_nil_r, filter_app, !map_app, E1;
     rewrite (cell_x_of_look (filter is_content o2)),
       (cell_w_of_look (filter is_content o2)), V2, !map_map;
     cbn [map cell_x cell_w ev_prim option_map fst snd app];
     rewrite !map_const_repeat, Hx1;
     change (cell_width 6 (x + indent)) with 6;
     change (cell_width 0 (x + indent + 6))
       with (page_w - r_margin - (x + indent + 6));
     split; reflexivity).
Qed.

End BulletColumns.

Section BulletColumnsWitnesses.

Lemma bullet_columns_across_page_breaks_witness :
  exists n,
    (1 <= n)%nat
    /\ map cell_x
           (filter is_content
              (snd (bullet (pdf_of ActiveMode now0) three_lines 10
                           near_bottom)))
       = Some (cur_x near_bottom + 10)
         :: repeat (Some (cur_x near_bottom + 10 + 6)) n
    /\ map cell_w
           (filter is_content
              (snd (bullet (pdf_of ActiveMode now0) three_lines 10
                           near_bottom)))
       = Some 6
         :: repeat (Some (page_w - r_margin - (cur_x near_bottom + 10 + 6)))
                   n.
Proof.
  apply (bullet_columns_across_page_breaks ActiveMode now0 three_lines 10
           near_bottom).
  vm_compute. discriminate.
Defined.

End BulletColumnsWitnesses.

(** * Rows of the checklist on the page *)

Section ChecklistRows.



End ChecklistRows.

(** * Opening pages *)

Section OpeningPages.


Lemma run_page_grows (sc : script) (now : nat -> nat) (c : call) (s : state) :
  good s ->
  (page s + explicit_pages [c]
   <= page (fst (run (pdf_of sc now) c s)))%nat.
Proof.
  intro G. destruct (steady_run sc now c s G) as (_ & _ & T).
  pose proof (proj1 (trace_range _ _ _ _ _ T)) as Hle.
  destruct c; cbn [explicit_pages]; try lia.
  cbn [run]. rewrite (add_page_eq sc now s (good_trigger s G)).
  cbn [fst paged page]. lia.
Qed.

(** X14.  Explicit pages add up.  Run on an object whose first page is
    open, a list of calls ends at least as many pages further as it
    contains [add_page] calls: automatic page breaks only add to the
    pages the script opens itself. *)
Theorem run_all_counts_explicit_pages
        (sc : script) (now : nat -> nat) (cs : list call) :
  forall s,
    good s ->
    (page s + explicit_pages cs
     <= page (fst (run_all (pdf_of sc now) cs s)))%nat.
Proof.
  induction cs as [|c rest IH]; intros s G.
  - cbn. lia.
  - cbn [run_all]. unfold seq. cbn [fst].
    pose proof (run_page_grows sc now c s G) as H1.
    destruct (steady_run sc now c s G) as (G1 & _ & _).
    pose proof (IH _ G1) as H2.
    assert (E : explicit_pages (c :: rest)
                = (explicit_pages [c] + explicit_pages rest)%nat)
      by (destruct c; reflexivity).
    rewrite E. lia.
Qed.

End OpeningPages.

Section OpeningPagesWitnesses.


Lemma run_all_counts_explicit_pages_witness :
  (page top_of_page + explicit_pages feed_feature_overview
   <= page (fst (run_all (pdf_of FeedFeature now0) feed_feature_overview
                         top_of_page)))%nat.
Proof.
  exact (run_all_counts_explicit_pages FeedFeature now0
           feed_feature_overview top_of_page top_of_page_good).
Defined.

End OpeningPagesWitnesses.
